(** * Room Finder: the Alexa skill and its Microsoft Graph requesters

    A shallow embedding of [lambda/index.js] (the dialog handlers) and
    [lambda/requesters.js] (the three functions that talk to the calendar
    service), followed by the properties of the session dialog and of the
    availability search.

    Conventions.
    - JavaScript values that travel through the program (parsed response
      bodies, calendars, credentials, error causes) are terms of [value].
    - A JavaScript exception is the [Throw] case of [completion].
    - A Q deferred is a three-state cell; [resolve] and [reject] act on a
      pending cell only.
    - The outside world of one invocation (clock, the replies of the calendar
      service, the order in which the availability queries complete, the
      configured list of room names and the duration parser of moment.js) is
      the record [world]. *)

From Stdlib Require Import ZArith QArith List String Bool Lia Permutation.
Import ListNotations.
Local Open Scope string_scope.
Local Open Scope Z_scope.
Set Warnings "-register-all".

(** ** JavaScript values and the operators the source applies to them *)

Module JS.

(** Values.  Numbers are integers: nothing below reads a fractional number
    out of a response body.  An object is the list of its own properties, first
    binding first. *)
Inductive value : Type :=
  | Undefined
  | Null
  | Bool (b : bool)
  | Num (n : Z)
  | Str (s : string)
  | Arr (items : list value)
  | Obj (props : list (string * value)).

Inductive exn : Type :=
  | SyntaxError
  | TypeError.

(** Normal or abrupt completion of a piece of code. *)
Inductive completion (A : Type) : Type :=
  | Normal (a : A)
  | Throw (e : exn).
Arguments Normal {A} a.
Arguments Throw {A} e.

Definition bind {A B} (m : completion A) (k : A -> completion B) : completion B :=
  match m with
  | Normal a => k a
  | Throw e => Throw e
  end.

(** [if (v)] *)
Definition truthy (v : value) : bool :=
  match v with
  | Undefined | Null => false
  | Bool b => b
  | Num n => negb (n =? 0)
  | Str s => negb (s =? EmptyString)%string
  | Arr _ | Obj _ => true
  end.

Fixpoint assoc (k : string) (props : list (string * value)) : option value :=
  match props with
  | [] => None
  | (k', v) :: rest => if (k =? k')%string then Some v else assoc k rest
  end.

(** [v.k] for the property names the source reads ([error], [message],
    [value], [name], [id], [owner], [address], [ownerName], [ownerAddress]):
    none of them is defined on a primitive or on an array. *)
Definition get (v : value) (k : string) : completion value :=
  match v with
  | Undefined | Null => Throw TypeError
  | Obj props =>
      match assoc k props with
      | Some x => Normal x
      | None => Normal Undefined
      end
  | _ => Normal Undefined
  end.

(** An object that owns a member named [toString].  A value read out of JSON
    text holds no function, so the member is not callable and the object has
    no way to a primitive: converting it to text throws a TypeError. *)
Definition owns_toString (props : list (string * value)) : bool :=
  match assoc "toString" props with
  | Some _ => true
  | None => false
  end.

(** [ToString(v)] is the empty string.  An array prints its elements joined
    by commas, [null] and [undefined] printing as nothing; every element is
    converted, so one that cannot be converted makes the whole conversion
    throw. *)
Fixpoint text_is_empty (v : value) : completion bool :=
  match v with
  | Undefined | Null | Bool _ | Num _ => Normal false
  | Str s => Normal (s =? EmptyString)%string
  | Arr items =>
      bind
        ((fix each (l : list value) : completion (list bool) :=
            match l with
            | [] => Normal []
            | x :: rest =>
                bind
                  (match x with
                   | Undefined | Null => Normal true
                   | _ => text_is_empty x
                   end)
                  (fun e => bind (each rest) (fun es => Normal (e :: es)))
            end) items)
        (fun es =>
           match es with
           | [] => Normal true
           | [e] => Normal e
           | _ => Normal false
           end)
  | Obj props => if owns_toString props then Throw TypeError else Normal false
  end.

(** The elements of an array as [join] prints them, one after the other. *)
Definition element_is_empty (x : value) : completion bool :=
  match x with
  | Undefined | Null => Normal true
  | _ => text_is_empty x
  end.

Fixpoint elements_are_empty (l : list value) : completion (list bool) :=
  match l with
  | [] => Normal []
  | x :: rest =>
      bind (element_is_empty x)
        (fun e => bind (elements_are_empty rest) (fun es => Normal (e :: es)))
  end.

(** [v == ''] (abstract equality against the empty string): an array or an
    object is converted to a primitive first, which can throw. *)
Definition loose_eq_empty (v : value) : completion bool :=
  match v with
  | Undefined | Null => Normal false
  | Bool b => Normal (negb b)
  | Num n => Normal (n =? 0)
  | Str s => Normal (s =? EmptyString)%string
  | Arr _ => text_is_empty v
  | Obj props => if owns_toString props then Throw TypeError else Normal false
  end.

(** [names.indexOf(v)]: strict equality, so only a string can be found. *)
Fixpoint index_from (i : Z) (names : list string) (s : string) : Z :=
  match names with
  | [] => -1
  | n :: rest => if (n =? s)%string then i else index_from (i + 1) rest s
  end.

Definition indexOf (names : list string) (v : value) : Z :=
  match v with
  | Str s => index_from 0 names s
  | _ => -1
  end.

(** [~n] *)
Definition bitnot (n : Z) : Z := Z.lnot n.

(** [v.toString()]: only its failure matters here.  [null] and [undefined]
    have no members; an object that owns a member named [toString] has one
    that is not a function; an array prints its elements. *)
Definition toString_ok (v : value) : completion unit :=
  match v with
  | Undefined | Null => Throw TypeError
  | Obj props => if owns_toString props then Throw TypeError else Normal tt
  | Arr _ => bind (text_is_empty v) (fun _ => Normal tt)
  | _ => Normal tt
  end.

(** The text of a response body, identified with the value it denotes when it
    is well-formed JSON.  [NotJSON] covers every other text and the
    [undefined] body that comes with a transport error. *)
Inductive body : Type :=
  | NotJSON
  | JSON (v : value).

Definition JSON_parse (b : body) : completion value :=
  match b with
  | NotJSON => Throw SyntaxError
  | JSON v => Normal v
  end.

End JS.

Import JS.

Notation "x <- m ;; k" := (JS.bind m (fun x => k))
  (at level 61, m at next level, right associativity).

(** ** Q deferreds *)

Module Q_promise.

Inductive deferred : Type :=
  | Pending
  | Fulfilled (v : value)
  | Rejected (reason : value).

Definition resolve (v : value) (d : deferred) : deferred :=
  match d with
  | Pending => Fulfilled v
  | _ => d
  end.

Definition reject (reason : value) (d : deferred) : deferred :=
  match d with
  | Pending => Rejected reason
  | _ => d
  end.

Definition settled (d : deferred) : bool :=
  match d with
  | Pending => false
  | _ => true
  end.

End Q_promise.

Import Q_promise.

(** ** lambda/requesters.js *)

(** What the [request] package hands to a callback: [err] ([null] when the
    exchange succeeded) and the body text. *)
Record reply : Type := mkReply { err : value; response_body : body }.

Module requesters.

(** The callback of [requesters.postRoom]. *)
Definition postRoom_callback (ownerName : value) (r : reply) (d : deferred)
  : completion deferred :=
  parsedBody <- JSON_parse (response_body r) ;;
  if truthy (err r) then Normal (reject (err r) d)
  else
    e <- get parsedBody "error" ;;
    if truthy e then Normal (reject e d)
    else Normal (resolve ownerName d).

(** The callback of [requesters.getCalendars]. *)
Definition getCalendars_callback (r : reply) (d : deferred) : completion deferred :=
  parsedBody <- JSON_parse (response_body r) ;;
  if truthy (err r) then Normal (reject (err r) d)
  else
    e <- get parsedBody "error" ;;
    if truthy e then
      m <- get e "message" ;;
      Normal (reject m d)
    else
      v <- get parsedBody "value" ;;
      Normal (resolve v d).

(** [~namesToFind.indexOf(calendar.name)] as a condition. *)
Definition listed (namesToFind : list string) (calendar : value) : completion bool :=
  name <- get calendar "name" ;;
  Normal (truthy (Num (bitnot (indexOf namesToFind name)))).

(** Building [calViewUrl] reads [calendar.id.toString()]. *)
Definition calViewUrl_ok (calendar : value) : completion unit :=
  id <- get calendar "id" ;;
  toString_ok id.

(** The [forEach] of [findFreeRoom]: the calendars for which a calendar-view
    request is sent, in the order of the listing, and the exception that
    left the loop, if any.  The requests sent before an exception stay in
    flight. *)
Fixpoint issue (namesToFind : list string) (calendars : list value)
  : list value * option exn :=
  match calendars with
  | [] => ([], None)
  | calendar :: rest =>
      match listed namesToFind calendar with
      | Throw e => ([], Some e)
      | Normal false => issue namesToFind rest
      | Normal true =>
          match calViewUrl_ok calendar with
          | Throw e => ([], Some e)
          | Normal _ =>
              let (sent, stop) := issue namesToFind rest in
              (calendar :: sent, stop)
          end
      end
  end.

(** [parsedCals.forEach(...)]: only an array has the method. *)
Definition forEach_issue (namesToFind : list string) (parsedCals : value)
  : list value * option exn :=
  match parsedCals with
  | Arr calendars => issue namesToFind calendars
  | _ => ([], Some TypeError)
  end.

(** The object literal passed to [deferred.resolve]. *)
Definition credentials (calendar : value) : completion value :=
  owner <- get calendar "owner" ;;
  ownerName <- get owner "name" ;;
  owner' <- get calendar "owner" ;;
  ownerAddress <- get owner' "address" ;;
  name <- get calendar "name" ;;
  Normal (Obj [("ownerName", ownerName); ("ownerAddress", ownerAddress); ("name", name)]).

(** The callback of one calendar-view request of [findFreeRoom]. *)
Definition findFreeRoom_callback (calendar : value) (r : reply) (d : deferred)
  : completion deferred :=
  parsedBody <- JSON_parse (response_body r) ;;
  if truthy (err r) then Normal (reject (err r) d)
  else
    e <- get parsedBody "error" ;;
    if truthy e then
      m <- get e "message" ;;
      Normal (reject m d)
    else
      v <- get parsedBody "value" ;;
      free <- loose_eq_empty v ;;
      if free then
        creds <- credentials calendar ;;
        Normal (resolve creds d)
      else Normal d.

(** The callbacks run one after the other in completion order, all on the one
    deferred of the call.  Nothing in the source catches what a callback
    throws: the run ends there. *)
Fixpoint run_callbacks (d : deferred) (arrivals : list (value * reply))
  : deferred * option exn :=
  match arrivals with
  | [] => (d, None)
  | (calendar, r) :: rest =>
      match findFreeRoom_callback calendar r d with
      | Throw e => (d, Some e)
      | Normal d' => run_callbacks d' rest
      end
  end.

(** The completion order names each request by its position among the
    requests sent; a position that was never sent has no callback. *)
Fixpoint deliver (sent : list value) (order : list (nat * reply))
  : list (value * reply) :=
  match order with
  | [] => []
  | (i, r) :: rest =>
      match nth_error sent i with
      | Some calendar => (calendar, r) :: deliver sent rest
      | None => deliver sent rest
      end
  end.

(** What becomes of the promise [findFreeRoom] returns. *)
Inductive outcome : Type :=
  | Settled_resolved (creds : value)
  | Settled_rejected (reason : value)
  | Uncaught (e : exn)
  | Unsettled.

Definition observe (run : deferred * option exn) : outcome :=
  match run with
  | (Fulfilled v, _) => Settled_resolved v
  | (Rejected reason, _) => Settled_rejected reason
  | (Pending, Some e) => Uncaught e
  | (Pending, None) => Unsettled
  end.

(** A call of [requesters.findFreeRoom]: the exception it throws instead of
    returning its promise, if any, and what the callbacks of the requests it
    sent make of its deferred. *)
Record search : Type := mkSearch { thrown : option exn; fate : outcome }.

Definition findFreeRoom (namesToFind : list string) (parsedCals : value)
  (order : list (nat * reply)) : search :=
  let (sent, stop) := forEach_issue namesToFind parsedCals in
  mkSearch stop (observe (run_callbacks Pending (deliver sent order))).

End requesters.

Import requesters.

(** ** lambda/index.js *)

(** *** moment.js durations

    The handlers use the length of the Duration object of
    [moment.duration(text)] only.  The parser itself belongs to the library
    and is a field of [world]; lengths are whole milliseconds here. *)
Record Duration : Type := mkDuration { asMilliseconds : Z }.

(** milliseconds / 36e5 *)
Definition asHours (d : Duration) : Q := (asMilliseconds d # 3600000)%Q.

(** milliseconds / 6e4 *)
Definition asMinutes (d : Duration) : Q := Qred (asMilliseconds d # 60000)%Q.

(** [if (object)]: a reference to an object is truthy. *)
Definition truthy_object {A : Type} (o : A) : bool := true.

(** *** Session data *)

(** [states]; [NoState] is the empty string of a fresh session. *)
Inductive state : Type :=
  | NoState
  | TIMEMODE
  | CONFIRMMODE.

(** [if (this.handler.state)] in the SDK's ':responseReady'. *)
Definition state_truthy (st : state) : bool :=
  match st with
  | NoState => false
  | _ => true
  end.

(** Text handed to Alexa: a resource string with its arguments, or a value
    used as text. *)
Inductive speech : Type :=
  | T (key : string) (args : list speech)
  | Attr (v : value)
  | Minutes (m : option Q).

(** [this.attributes], one field per attribute the source uses; [Undefined]
    and [None] are JavaScript's [undefined].  [startTime] and [endTime] hold
    the instant (milliseconds since the epoch) whose ISO-8601 text the source
    stores. *)
Record session_attributes : Type := mkAttributes {
  STATE : state;
  ownerAddress : value;
  ownerName : value;
  roomName : value;
  startTime : option Z;
  endTime : option Z;
  duration : option Q;
  speechOutput : option speech;
  repromptSpeech : option speech
}.

(** The handler context [this]: [this.handler.state], [this.attributes] and
    the Duration slot of the request. *)
Record context : Type := mkContext {
  handler_state : state;
  attributes : session_attributes;
  slot_Duration : value
}.

Definition with_state (st : state) (this : context) : context :=
  mkContext st (attributes this) (slot_Duration this).

Definition with_attributes (a : session_attributes) (this : context) : context :=
  mkContext (handler_state this) a (slot_Duration this).

(** *** The outside world of one invocation *)

Record world : Type := mkWorld {
  now : Z;
  moment_duration : value -> Duration;
  config_testNames : list string;
  calendars_reply : reply;
  views_order : list (nat * reply);
  event_reply : reply
}.

(** *** What an invocation does *)

Inductive response : Type :=
  | ask (speechOutput repromptSpeech : option speech)
  | tell (speechOutput : speech)
  | tellWithCard (speechOutput cardTitle cardContent : speech).

(** Calls into requesters.js, in the order they are made. *)
Inductive remote_call : Type :=
  | call_getCalendars
  | call_findFreeRoom (startTime endTime : option Z) (namesToFind : list string)
      (parsedCals : value)
  | call_postRoom (ownerAddress ownerName : value) (startTime endTime : option Z).

(** How the invocation ends: one response together with the session
    attributes it carries, an exception nothing caught, or no response at all
    (a promise that never settles). *)
Inductive ending : Type :=
  | Responded (r : response) (session : session_attributes)
  | Crashed (e : exn)
  | NoResponse.

Record turn : Type := mkTurn { calls : list remote_call; turn_end : ending }.

(** The SDK's ':responseReady': the STATE attribute is overwritten only by a
    truthy [this.handler.state]. *)
Definition responseReady (this : context) : session_attributes :=
  let a := attributes this in
  if state_truthy (handler_state this)
  then mkAttributes (handler_state this) (ownerAddress a) (ownerName a) (roomName a)
         (startTime a) (endTime a) (duration a) (speechOutput a) (repromptSpeech a)
  else a.

Definition emit_response (r : response) (this : context) : turn :=
  mkTurn [] (Responded r (responseReady this)).

(** *** Helpers of index.js *)

Definition emitAsk (speechOutput0 repromptSpeech0 : option speech) (this : context)
  : turn :=
  let a := attributes this in
  let a1 := mkAttributes (STATE a) (ownerAddress a) (ownerName a) (roomName a)
              (startTime a) (endTime a) (duration a) speechOutput0 (repromptSpeech a) in
  let a2 := mkAttributes (STATE a1) (ownerAddress a1) (ownerName a1) (roomName a1)
              (startTime a1) (endTime a1) (duration a1) (speechOutput a1) repromptSpeech0 in
  emit_response (ask (speechOutput a2) (repromptSpeech a2)) (with_attributes a2 this).

Definition resetAttributes (this : context) : context :=
  with_attributes
    (mkAttributes (STATE (attributes this)) Undefined Undefined Undefined
       None None None None None)
    this.

Definition emitRepeat (this : context) : turn :=
  emitAsk (speechOutput (attributes this)) (repromptSpeech (attributes this)) this.

Definition setDuration (w : world) (bookingDuration : Duration) (this : context)
  : context :=
  let startTime0 := now w in
  let endTime0 := startTime0 + asMilliseconds bookingDuration in
  let a := attributes this in
  with_attributes
    (mkAttributes (STATE a) (ownerAddress a) (ownerName a) (roomName a)
       (Some startTime0) (Some endTime0) (Some (asMinutes bookingDuration))
       (speechOutput a) (repromptSpeech a))
    this.

Definition getCalendars (w : world) : completion deferred :=
  getCalendars_callback (calendars_reply w) Pending.

Definition postRoom (w : world) (ownerName0 : value) : completion deferred :=
  postRoom_callback ownerName0 (event_reply w) Pending.

(** The success handler of [findFreeRoom(...).then] inside [getRoom]. *)
Definition store_credentials (creds : value) (this : context) : completion context :=
  a <- get creds "ownerAddress" ;;
  n <- get creds "ownerName" ;;
  r <- get creds "name" ;;
  let old := attributes this in
  Normal (with_attributes
            (mkAttributes (STATE old) a n r (startTime old) (endTime old)
               (duration old) (speechOutput old) (repromptSpeech old))
            this).

(** [getRoom]: the calls made, the context afterwards and what becomes of the
    promise it returns.  An exception inside a [then] handler is kept by Q in
    a promise that nothing reads, so the promise of [getRoom] stays pending;
    when [findFreeRoom] throws, nothing listens to its deferred and only an
    exception out of a callback still shows. *)
Definition getRoom (w : world) (this : context)
  : list remote_call * context * outcome :=
  match getCalendars w with
  | Throw e => ([call_getCalendars], this, Uncaught e)
  | Normal Pending => ([call_getCalendars], this, Unsettled)
  | Normal (Rejected calError) => ([call_getCalendars], this, Settled_rejected calError)
  | Normal (Fulfilled parsedCals) =>
      let a := attributes this in
      let made := [call_getCalendars;
                   call_findFreeRoom (startTime a) (endTime a) (config_testNames w)
                     parsedCals] in
      match findFreeRoom (config_testNames w) parsedCals (views_order w) with
      | mkSearch (Some _) (Uncaught e) => (made, this, Uncaught e)
      | mkSearch (Some _) _ => (made, this, Unsettled)
      | mkSearch None (Settled_resolved creds) =>
          match store_credentials creds this with
          | Normal this' => (made, this', Settled_resolved creds)
          | Throw _ => (made, this, Unsettled)
          end
      | mkSearch None (Settled_rejected roomError) =>
          (made, this, Settled_rejected roomError)
      | mkSearch None other => (made, this, other)
      end
  end.

(** *** Handlers of a session without state *)

Module sessionHandlers.

Definition LaunchRequest (w : world) (this : context) : turn :=
  emitAsk (Some (T "WELCOME_MESSAGE" [T "BUSINESS_NAME" []]))
          (Some (T "WELCOME_REPROMPT" [T "SKILL_NAME" []])) this.

Definition AMAZON_HelpIntent (w : world) (this : context) : turn :=
  emitAsk (Some (T "HELP_MESSAGE" [])) (Some (T "HELP_REPROMPT" [])) this.

Definition AMAZON_RepeatIntent (w : world) (this : context) : turn :=
  emitRepeat this.

Definition SessionEndedRequest (w : world) (this : context) : turn :=
  emit_response (tell (T "STOP_MESSAGE" [])) this.

Definition AMAZON_StopIntent (w : world) (this : context) : turn :=
  SessionEndedRequest w this.

Definition AMAZON_CancelIntent (w : world) (this : context) : turn :=
  SessionEndedRequest w this.

Definition AMAZON_NoIntent (w : world) (this : context) : turn :=
  SessionEndedRequest w this.

Definition BookIntent (w : world) (this : context) : turn :=
  let this := with_state TIMEMODE this in
  emitAsk (Some (T "TIME_DURATION_MESSAGE" [])) (Some (T "TIME_DURATION_REPROMPT" []))
    this.

Definition AMAZON_YesIntent (w : world) (this : context) : turn :=
  BookIntent w this.

Definition Unhandled (w : world) (this : context) : turn :=
  emitAsk (Some (T "UNHANDLED_MESSAGE" [])) (Some (T "UNHANDLED_REPROMPT" [])) this.

End sessionHandlers.

(** *** Handlers of states.TIMEMODE *)

Module timeModeHandlers.

Definition AMAZON_HelpIntent (w : world) (this : context) : turn :=
  emitAsk (Some (T "TIME_HELP_MESSAGE" [Attr (roomName (attributes this))]))
          (Some (T "TIME_HELP_REPROMPT" [Attr (roomName (attributes this))])) this.

Definition AMAZON_RepeatIntent (w : world) (this : context) : turn :=
  emitRepeat this.

Definition AMAZON_StopIntent (w : world) (this : context) : turn :=
  sessionHandlers.SessionEndedRequest w this.

Definition AMAZON_CancelIntent (w : world) (this : context) : turn :=
  sessionHandlers.SessionEndedRequest w this.

Definition AMAZON_NoIntent (w : world) (this : context) : turn :=
  sessionHandlers.SessionEndedRequest w this.

Definition Unhandled (w : world) (this : context) : turn :=
  emitAsk (Some (T "TIME_UNHANDLED_MESSAGE" [])) (Some (T "TIME_UNHANDLED_REPROMPT" []))
    this.

(** The two handlers given to [getRoom.call(this).then]. *)
Definition room_answer (made : list remote_call) (this : context) (o : outcome)
  : turn :=
  match o with
  | Settled_resolved creds =>
      if truthy creds then
        let this := with_state CONFIRMMODE this in
        mkTurn made
          (turn_end
             (emitAsk
                (Some (T "ROOM_AVAILABLE_MESSAGE" [Attr (roomName (attributes this))]))
                (Some (T "ROOM_AVAILABLE_REPROMPT" [Attr (roomName (attributes this))]))
                this))
      else
        mkTurn made
          (turn_end
             (emitAsk
                (Some (T "TIME_UNAVAILABLE_MESSAGE" [Minutes (duration (attributes this))]))
                (Some (T "TIME_UNAVAILABLE_REPROMPT" [Minutes (duration (attributes this))]))
                this))
  | Settled_rejected error =>
      mkTurn made
        (turn_end
           (emit_response
              (tellWithCard (T "ROOM_ERROR" []) (T "ROOM_ERROR_CARD_TITLE" []) (Attr error))
              this))
  | Uncaught e => mkTurn made (Crashed e)
  | Unsettled => mkTurn made NoResponse
  end.

Definition DurationIntent (w : world) (this : context) : turn :=
  let bookingDuration := moment_duration w (slot_Duration this) in
  if truthy_object bookingDuration then
    if negb (Qle_bool (asHours bookingDuration) 2) then
      emitAsk (Some (T "TIME_TOO_LONG_MESSAGE" [])) (Some (T "TIME_TOO_LONG_REPROMPT" []))
        this
    else if Qle_bool (asHours bookingDuration) 0 then
      emitAsk (Some (T "TIME_UNHANDLED_MESSAGE" []))
        (Some (T "TIME_UNHANDLED_REPROMPT" [])) this
    else
      let this := setDuration w bookingDuration this in
      match getRoom w this with
      | (made, this, o) => room_answer made this o
      end
  else
    emitAsk (Some (T "TIME_UNHANDLED_MESSAGE" [])) (Some (T "TIME_UNHANDLED_MESSAGE" []))
      this.

End timeModeHandlers.

(** [emitStartOver]: the second assignment writes the STATE attribute itself,
    which ':responseReady' would leave alone for the empty state.  With the
    state emptied, [emitWithState('LaunchRequest')] reaches the handler of
    the stateless table; any other state has no LaunchRequest listener and
    falls to its Unhandled one. *)
Definition clear_STATE (this : context) : context :=
  let a := attributes this in
  with_attributes
    (mkAttributes NoState (ownerAddress a) (ownerName a) (roomName a) (startTime a)
       (endTime a) (duration a) (speechOutput a) (repromptSpeech a))
    this.

Definition Unhandled_CONFIRMMODE (w : world) (this : context) : turn :=
  emitAsk (Some (T "BOOKING_UNHANDLED_MESSAGE" []))
          (Some (T "BOOKING_UNHANDLED_REPROMPT" [])) this.

Definition emitWithState_LaunchRequest (w : world) (this : context) : turn :=
  match handler_state this with
  | NoState => sessionHandlers.LaunchRequest w this
  | TIMEMODE => timeModeHandlers.Unhandled w this
  | CONFIRMMODE => Unhandled_CONFIRMMODE w this
  end.

Definition emitStartOver (w : world) (this : context) : turn :=
  let this := with_state NoState this in
  let this := clear_STATE this in
  let this := resetAttributes this in
  emitWithState_LaunchRequest w this.

(** *** Handlers of states.CONFIRMMODE *)

Module confirmModeHandlers.

Definition AMAZON_HelpIntent (w : world) (this : context) : turn :=
  emitAsk (Some (T "BOOKING_HELP_MESSAGE" [Attr (roomName (attributes this))]))
          (Some (T "BOOKING_HELP_REPROMPT" [Attr (roomName (attributes this))])) this.

Definition AMAZON_RepeatIntent (w : world) (this : context) : turn :=
  emitRepeat this.

Definition AMAZON_StopIntent (w : world) (this : context) : turn :=
  sessionHandlers.SessionEndedRequest w this.

Definition AMAZON_CancelIntent (w : world) (this : context) : turn :=
  sessionHandlers.SessionEndedRequest w this.

Definition AMAZON_NoIntent (w : world) (this : context) : turn :=
  sessionHandlers.SessionEndedRequest w this.

Definition BookIntent (w : world) (this : context) : turn :=
  let a := attributes this in
  let made := [call_postRoom (ownerAddress a) (ownerName a) (startTime a) (endTime a)] in
  match postRoom w (ownerName a) with
  | Throw e => mkTurn made (Crashed e)
  | Normal Pending => mkTurn made NoResponse
  | Normal (Fulfilled _) =>
      mkTurn made
        (turn_end
           (emit_response
              (tellWithCard
                 (T "ROOM_BOOKED" [Attr (ownerName a); Minutes (duration a)])
                 (T "CARD_ROOM_BOOKED_TITLE" [Attr (ownerName a)])
                 (T "CARD_ROOM_BOOKED_CONTENT" [Attr (ownerName a); Minutes (duration a)]))
              this))
  | Normal (Rejected bookError) =>
      mkTurn made
        (turn_end
           (emit_response
              (tellWithCard (T "BOOKING_ERROR" []) (T "BOOKING_ERROR_CARD_TITLE" [])
                 (Attr bookError))
              this))
  end.

(** [this.emitWithState('BookIntent')] *)
Definition AMAZON_YesIntent (w : world) (this : context) : turn :=
  match handler_state this with
  | NoState => sessionHandlers.BookIntent w this
  | TIMEMODE => timeModeHandlers.Unhandled w this
  | CONFIRMMODE => BookIntent w this
  end.

Definition AMAZON_StartOverIntent (w : world) (this : context) : turn :=
  emitStartOver w this.

Definition Unhandled (w : world) (this : context) : turn :=
  Unhandled_CONFIRMMODE w this.

End confirmModeHandlers.

(** *** Dispatch *)

(** The name the SDK derives from the request: the request type, or the
    intent name of an IntentRequest. *)
Inductive event_name : Type :=
  | EvLaunchRequest
  | EvSessionEndedRequest
  | EvHelpIntent
  | EvRepeatIntent
  | EvStopIntent
  | EvCancelIntent
  | EvNoIntent
  | EvYesIntent
  | EvStartOverIntent
  | EvBookIntent
  | EvDurationIntent
  | EvOther (intent : string).

Definition handler : Type := world -> context -> turn.

(** The name of a request as the SDK reads it from the event. *)
Definition event_string (ev : event_name) : string :=
  match ev with
  | EvLaunchRequest => "LaunchRequest"
  | EvSessionEndedRequest => "SessionEndedRequest"
  | EvHelpIntent => "AMAZON.HelpIntent"
  | EvRepeatIntent => "AMAZON.RepeatIntent"
  | EvStopIntent => "AMAZON.StopIntent"
  | EvCancelIntent => "AMAZON.CancelIntent"
  | EvNoIntent => "AMAZON.NoIntent"
  | EvYesIntent => "AMAZON.YesIntent"
  | EvStartOverIntent => "AMAZON.StartOverIntent"
  | EvBookIntent => "BookIntent"
  | EvDurationIntent => "DurationIntent"
  | EvOther intent => intent
  end.

(** [states]: the strings the states stand for. *)
Definition state_string (st : state) : string :=
  match st with
  | NoState => EmptyString
  | TIMEMODE => "_TIMEMODE"
  | CONFIRMMODE => "_CONFIRMMODE"
  end.

(** [Alexa.CreateStateHandler(state, table)]: the state string is appended to
    the name of every handler of the table. *)
Definition CreateStateHandler (st : state) (table : list (string * handler))
  : list (string * handler) :=
  map (fun entry => (fst entry ++ state_string st, snd entry)) table.

Definition sessionHandlers_table : list (string * handler) :=
  [("LaunchRequest", sessionHandlers.LaunchRequest);
   ("AMAZON.HelpIntent", sessionHandlers.AMAZON_HelpIntent);
   ("AMAZON.RepeatIntent", sessionHandlers.AMAZON_RepeatIntent);
   ("AMAZON.StopIntent", sessionHandlers.AMAZON_StopIntent);
   ("AMAZON.CancelIntent", sessionHandlers.AMAZON_CancelIntent);
   ("AMAZON.NoIntent", sessionHandlers.AMAZON_NoIntent);
   ("AMAZON.YesIntent", sessionHandlers.AMAZON_YesIntent);
   ("BookIntent", sessionHandlers.BookIntent);
   ("Unhandled", sessionHandlers.Unhandled);
   ("SessionEndedRequest", sessionHandlers.SessionEndedRequest)].

Definition timeModeHandlers_table : list (string * handler) :=
  CreateStateHandler TIMEMODE
    [("AMAZON.HelpIntent", timeModeHandlers.AMAZON_HelpIntent);
     ("AMAZON.RepeatIntent", timeModeHandlers.AMAZON_RepeatIntent);
     ("AMAZON.StopIntent", timeModeHandlers.AMAZON_StopIntent);
     ("AMAZON.CancelIntent", timeModeHandlers.AMAZON_CancelIntent);
     ("AMAZON.NoIntent", timeModeHandlers.AMAZON_NoIntent);
     ("DurationIntent", timeModeHandlers.DurationIntent);
     ("AMAZON.StartOverIntent", emitStartOver);
     ("Unhandled", timeModeHandlers.Unhandled)].

Definition confirmModeHandlers_table : list (string * handler) :=
  CreateStateHandler CONFIRMMODE
    [("AMAZON.HelpIntent", confirmModeHandlers.AMAZON_HelpIntent);
     ("AMAZON.RepeatIntent", confirmModeHandlers.AMAZON_RepeatIntent);
     ("AMAZON.StopIntent", confirmModeHandlers.AMAZON_StopIntent);
     ("AMAZON.CancelIntent", confirmModeHandlers.AMAZON_CancelIntent);
     ("AMAZON.NoIntent", confirmModeHandlers.AMAZON_NoIntent);
     ("AMAZON.YesIntent", confirmModeHandlers.AMAZON_YesIntent);
     ("BookIntent", confirmModeHandlers.BookIntent);
     ("AMAZON.StartOverIntent", confirmModeHandlers.AMAZON_StartOverIntent);
     ("Unhandled", confirmModeHandlers.Unhandled)].

(** [alexa.registerHandlers(sessionHandlers, confirmModeHandlers,
    timeModeHandlers)]: the handlers of the three tables become listeners of
    one emitter, each under its name with the state string of its table.
    The listeners the SDK registers for its own use (':ask', ':tell',
    ':tellWithCard', ':responseReady' and the like) are on the same emitter
    under names that begin with a colon, which the name of a request never
    does. *)
Definition listeners : list (string * handler) :=
  (sessionHandlers_table ++ confirmModeHandlers_table ++ timeModeHandlers_table)%list.

(** The listener of an event string. *)
Fixpoint listener (registered : list (string * handler)) (eventString : string)
  : option handler :=
  match registered with
  | [] => None
  | (name, h) :: rest =>
      if (eventString =? name)%string then Some h else listener rest eventString
  end.

(** The Unhandled listener of a state. *)
Definition unhandled (st : state) : handler :=
  match st with
  | NoState => sessionHandlers.Unhandled
  | TIMEMODE => timeModeHandlers.Unhandled
  | CONFIRMMODE => confirmModeHandlers.Unhandled
  end.

(** One invocation of [exports.handler]: the state is read from the STATE
    attribute of the incoming session and appended to the name of the
    request; the listener of that event string runs, and an event string
    without a listener goes to 'Unhandled' with the state appended, which
    every table registers. *)
Definition handle (w : world) (session : session_attributes) (ev : event_name)
  (slot : value) : turn :=
  let this := mkContext (STATE session) session slot in
  let eventString := event_string ev ++ state_string (STATE session) in
  match listener listeners eventString with
  | Some h => h w this
  | None => unhandled (STATE session) w this
  end.

(** ** The vocabulary of the specification *)

(** The answer of one availability query. *)
Inductive query_result : Type :=
  | Free
  | Busy
  | Error (cause : value).

(** A calendar event is a JSON object. *)
Definition is_event (v : value) : bool :=
  match v with
  | Obj _ => true
  | _ => false
  end.

(** The cause the callback reads off a reply: the transport error when there
    is one, else the message of the [error] member of the body.  The body is
    JSON text in both cases; a reply whose body is not gives the callback
    nothing to read, and [lookup_error] below counts it among the errors all
    the same. *)
Definition error_of (r : reply) : option value :=
  match response_body r with
  | NotJSON => None
  | JSON parsed =>
      if truthy (err r) then Some (err r)
      else
        match parsed with
        | Obj props =>
            match assoc "error" props with
            | Some e =>
                if truthy e then
                  match e with
                  | Obj eprops =>
                      match assoc "message" eprops with
                      | Some m => Some m
                      | None => Some Undefined
                      end
                  | _ => Some Undefined
                  end
                else None
            | None => None
            end
        | _ => None
        end
  end.

(** The list of events a successful reply carries. *)
Definition events_of (r : reply) : option (list value) :=
  match err r, response_body r with
  | Null, JSON (Obj props) =>
      match assoc "error" props, assoc "value" props with
      | None, Some (Arr events) => Some events
      | _, _ => None
      end
  | _, _ => None
  end.

(** Free: no event in the window.  Busy: a non-empty list of events.
    Error: a reported cause.  Any other reply is none of the three. *)
Definition classify (r : reply) : option query_result :=
  match error_of r with
  | Some cause => Some (Error cause)
  | None =>
      match events_of r with
      | Some [] => Some Free
      | Some (e :: rest) => if forallb is_event (e :: rest) then Some Busy else None
      | None => None
      end
  end.

(** The cause of the first Error in completion order. *)
Fixpoint first_error (arrivals : list (value * reply)) : option value :=
  match arrivals with
  | [] => None
  | (_, r) :: rest =>
      match classify r with
      | Some (Error cause) => Some cause
      | _ => first_error rest
      end
  end.

(** An event that converts to text: an object that does not own a member
    named [toString]. *)
Definition is_plain_event (v : value) : bool :=
  match v with
  | Obj props => negb (owns_toString props)
  | _ => false
  end.

(** Busy, with events that convert to text: the comparison of the list
    against the empty string converts every one of them. *)
Definition plainly_busy (r : reply) : bool :=
  match classify r, events_of r with
  | Some Busy, Some events => forallb is_plain_event events
  | _, _ => false
  end.

(** Busy as above, or an Error whose cause the callback can read. *)
Definition busy_or_error (r : reply) : bool :=
  match classify r with
  | Some Busy => plainly_busy r
  | Some (Error _) => true
  | _ => false
  end.

(** An availability-lookup error as the specification lists them: a network
    failure (the transport reports an error), an authorisation failure (the
    body carries an [error] member) or a parse failure (the body is not JSON
    text). *)
Definition lookup_error (r : reply) : bool :=
  truthy (err r)
  || match response_body r with
     | NotJSON => true
     | JSON (Obj props) =>
         match assoc "error" props with
         | Some e => truthy e
         | None => false
         end
     | JSON _ => false
     end.

(** The three outcomes of an availability search, as the caller of [getRoom]
    tells them apart: a truthy resolution, a falsy one, a rejection. *)
Inductive AvailabilityOutcome : Type :=
  | Resolved (candidate : value)
  | NoneFree
  | Failed (cause : value).

Definition availability (o : outcome) : option AvailabilityOutcome :=
  match o with
  | Settled_resolved creds => Some (if truthy creds then Resolved creds else NoneFree)
  | Settled_rejected cause => Some (Failed cause)
  | Uncaught _ | Unsettled => None
  end.

(** *** Session attributes: set and unset *)

Definition is_set (v : value) : bool :=
  match v with
  | Undefined => false
  | _ => true
  end.

Definition is_some {A : Type} (o : option A) : bool :=
  match o with
  | Some _ => true
  | None => false
  end.

(** All six booking attributes set, or all six unset. *)
Definition group_all_or_none (a : session_attributes) : bool :=
  let flags := [is_set (ownerAddress a); is_set (ownerName a); is_set (roomName a);
                is_some (startTime a); is_some (endTime a); is_some (duration a)] in
  forallb (fun b => b) flags || forallb negb flags.

(** The two halves of the group: the time window written by [setDuration]
    and the room written by [getRoom]. *)
Definition window_all_or_none (a : session_attributes) : bool :=
  let flags := [is_some (startTime a); is_some (endTime a); is_some (duration a)] in
  forallb (fun b => b) flags || forallb negb flags.

Definition room_all_or_none (a : session_attributes) : bool :=
  let flags := [is_set (ownerAddress a); is_set (ownerName a); is_set (roomName a)] in
  forallb (fun b => b) flags || forallb negb flags.

Definition room_within_window (a : session_attributes) : bool :=
  implb (is_set (roomName a)) (is_some (startTime a)).

Definition booking_fields_ok (a : session_attributes) : bool :=
  window_all_or_none a && room_all_or_none a && room_within_window a.

Definition booking_fields_clear (a : session_attributes) : bool :=
  negb (is_set (ownerAddress a)) && negb (is_set (ownerName a))
  && negb (is_set (roomName a)) && negb (is_some (startTime a))
  && negb (is_some (endTime a)) && negb (is_some (duration a)).

(** The six booking attributes of a session. *)
Definition booking_fields (a : session_attributes)
  : value * value * value * option Z * option Z * option Q :=
  (ownerAddress a, ownerName a, roomName a, startTime a, endTime a, duration a).

(** A session at first contact. *)
Definition fresh_session : session_attributes :=
  mkAttributes NoState Undefined Undefined Undefined None None None None None.

(** A calendar of the directory that names its owner. *)
Definition has_owner (calendar : value) : bool :=
  match calendar with
  | Obj props =>
      match assoc "owner" props with
      | Some (Obj oprops) =>
          match assoc "name" oprops, assoc "address" oprops with
          | Some n, Some a => is_set n && is_set a
          | _, _ => false
          end
      | _ => false
      end
  | _ => false
  end.

(** The directory answers with calendars that name their owner. *)
Definition directory_names_owners (w : world) : bool :=
  match getCalendars w with
  | Normal (Fulfilled (Arr calendars)) => forallb has_owner calendars
  | _ => true
  end.

Definition booking_fields_set (a : session_attributes) : bool :=
  is_set (ownerAddress a) && is_set (ownerName a) && is_set (roomName a)
  && is_some (startTime a) && is_some (endTime a) && is_some (duration a).

(** The booking attributes a state goes with: all of them while a booking
    awaits confirmation, none before. *)
Definition fields_follow_state (a : session_attributes) : bool :=
  match STATE a with
  | CONFIRMMODE => booking_fields_set a
  | _ => booking_fields_clear a
  end.

(** Sessions in conversation: the skill keeps a session open by answering
    with a prompt, and the next request comes with the session that prompt
    carried. *)
Inductive in_conversation : session_attributes -> Prop :=
  | conversation_opens : in_conversation fresh_session
  | conversation_goes_on (w : world) (s : session_attributes) (ev : event_name)
      (slot : value) (sp rp : option speech) (s' : session_attributes) :
      in_conversation s ->
      directory_names_owners w = true ->
      turn_end (handle w s ev slot) = Responded (ask sp rp) s' ->
      in_conversation s'.

(** Sessions an invocation can leave behind: those in conversation and those
    carried by the response, a closing one included, to a request made in
    conversation. *)
Inductive reachable : session_attributes -> Prop :=
  | reach_open (s : session_attributes) : in_conversation s -> reachable s
  | reach_turn (w : world) (s : session_attributes) (ev : event_name) (slot : value)
      (r : response) (s' : session_attributes) :
      in_conversation s ->
      directory_names_owners w = true ->
      turn_end (handle w s ev slot) = Responded r s' ->
      reachable s'.

(** The session a reprompt of the duration state leaves behind. *)
Definition reprompted (s : session_attributes) (speechOutput0 repromptSpeech0 : speech)
  : session_attributes :=
  mkAttributes TIMEMODE (ownerAddress s) (ownerName s) (roomName s) (startTime s)
    (endTime s) (duration s) (Some speechOutput0) (Some repromptSpeech0).

(** ** Sample data *)

Module Sample.

Definition room (id name address : string) : value :=
  Obj [("id", Str id); ("name", Str name);
       ("owner", Obj [("name", Str name); ("address", Str address)])].

Definition room_a : value := room "cal-a" "Room A" "room.a@example.com".
Definition room_b : value := room "cal-b" "Room B" "room.b@example.com".
Definition kitchen : value := room "cal-k" "Kitchen" "kitchen@example.com".

Definition names : list string := ["Room A"; "Room B"].

Definition listing : value := Arr [room_a; kitchen; room_b].

Definition ok (v : value) : reply := mkReply Null (JSON v).

Definition free_reply : reply := ok (Obj [("value", Arr [])]).

Definition busy_reply : reply :=
  ok (Obj [("value", Arr [Obj [("subject", Str "Stand-up")]])]).

Definition denied_reply : reply :=
  ok (Obj [("error", Obj [("code", Str "InvalidAuthenticationToken");
                          ("message", Str "Access token has expired.")])]).

Definition throttled_reply : reply :=
  ok (Obj [("error", Obj [("code", Str "TooManyRequests");
                          ("message", Str "Too many requests.")])]).

(** A transport failure: an error object and no body. *)
Definition unreachable_reply : reply :=
  mkReply (Obj [("code", Str "ECONNRESET")]) NotJSON.

Definition listing_reply : reply := ok (Obj [("value", listing)]).

Definition created_reply : reply := ok (Obj [("id", Str "event-1")]).

(** The lengths moment.js gives to a few slot values; anything else is the
    empty span. *)
Definition durations (slot : value) : Duration :=
  match slot with
  | Str text =>
      if (text =? "PT30M")%string then mkDuration 1800000
      else if (text =? "PT2H")%string then mkDuration 7200000
      else if (text =? "PT3H")%string then mkDuration 10800000
      else mkDuration 0
  | _ => mkDuration 0
  end.

Definition world_with (directory : reply) (views : list (nat * reply)) (posted : reply)
  : world :=
  mkWorld 1490000000000 durations names directory views posted.

Definition collecting : session_attributes :=
  mkAttributes TIMEMODE Undefined Undefined Undefined None None None
    (Some (T "TIME_DURATION_MESSAGE" [])) (Some (T "TIME_DURATION_REPROMPT" [])).

Definition confirming : session_attributes :=
  mkAttributes CONFIRMMODE (Str "room.a@example.com") (Str "Room A") (Str "Room A")
    (Some 1490000000000) (Some 1490001800000) (Some (30 # 1)%Q)
    (Some (T "ROOM_AVAILABLE_MESSAGE" [Attr (Str "Room A")]))
    (Some (T "ROOM_AVAILABLE_REPROMPT" [Attr (Str "Room A")])).

End Sample.

(** ** Further vocabulary *)

(** The allow-list test read as a lookup: the calendar is an object whose
    name is a string of the list. *)
Definition on_list (namesToFind : list string) (calendar : value) : bool :=
  match calendar with
  | Obj props =>
      match assoc "name" props with
      | Some (Str s) => existsb (String.eqb s) namesToFind
      | _ => false
      end
  | _ => false
  end.

(** A calendar object whose id is a string, a number or a boolean: these
    print without fail. *)
Definition has_id (calendar : value) : bool :=
  match calendar with
  | Obj props =>
      match assoc "id" props with
      | Some (Str _) | Some (Num _) | Some (Bool _) => true
      | _ => false
      end
  | _ => false
  end.

(** A calendar object of the directory: on the list only with an id. *)
Definition calendar_ok (namesToFind : list string) (calendar : value) : bool :=
  is_event calendar && implb (on_list namesToFind calendar) (has_id calendar).

(** A calendar object without an owner. *)
Definition ownerless (calendar : value) : bool :=
  match calendar with
  | Obj props =>
      match assoc "owner" props with
      | None | Some Undefined | Some Null => true
      | Some _ => false
      end
  | _ => false
  end.

(** The session an accepted duration leaves to the search. *)
Definition with_window (w : world) (d : Duration) (s : session_attributes)
  : session_attributes :=
  mkAttributes (STATE s) (ownerAddress s) (ownerName s) (roomName s)
    (Some (now w)) (Some (now w + asMilliseconds d)) (Some (asMinutes d))
    (speechOutput s) (repromptSpeech s).

(** The session a prompt leaves behind: the attributes as they were, the
    state given and the prompt stored. *)
Definition prompted (st : state) (s : session_attributes) (sp rp : speech)
  : session_attributes :=
  mkAttributes st (ownerAddress s) (ownerName s) (roomName s) (startTime s)
    (endTime s) (duration s) (Some sp) (Some rp).

(** A request of the Alexa service: the name of an intent is made of
    letters, digits, underscores and periods, so that it never begins with
    the colon of the names of the SDK's own listeners. *)
Definition from_the_service (ev : event_name) : bool :=
  match ev with
  | EvOther intent => negb (String.prefix ":" intent)
  | _ => true
  end.

(** The listeners an event string can name in a state.  In the duration and
    the confirmation state the string ends in the state string, so that it
    names a listener of the table of the state; with no state the string is
    the bare name of the request, which can be the full name of any
    listener. *)
Definition within_reach (st : state) : list (string * handler) :=
  match st with
  | NoState => listeners
  | TIMEMODE => timeModeHandlers_table
  | CONFIRMMODE => confirmModeHandlers_table
  end.

(** The message and the reprompt of the Unhandled listener of a state. *)
Definition unhandled_prompt (st : state) : speech * speech :=
  match st with
  | NoState => (T "UNHANDLED_MESSAGE" [], T "UNHANDLED_REPROMPT" [])
  | TIMEMODE => (T "TIME_UNHANDLED_MESSAGE" [], T "TIME_UNHANDLED_REPROMPT" [])
  | CONFIRMMODE => (T "BOOKING_UNHANDLED_MESSAGE" [], T "BOOKING_UNHANDLED_REPROMPT" [])
  end.

(** ** Runs on the sample data *)

Example sample_free_room :
  findFreeRoom Sample.names Sample.listing
    [(1%nat, Sample.busy_reply); (0%nat, Sample.free_reply)]
  = mkSearch None
      (Settled_resolved
              (Obj [("ownerName", Str "Room A");
                    ("ownerAddress", Str "room.a@example.com");
                    ("name", Str "Room A")])).
Proof. reflexivity. Qed.

Example sample_half_hour :
  handle (Sample.world_with Sample.listing_reply
            [(1%nat, Sample.busy_reply); (0%nat, Sample.free_reply)]
            Sample.created_reply)
    Sample.collecting EvDurationIntent (Str "PT30M")
  = mkTurn
      [call_getCalendars;
       call_findFreeRoom (Some 1490000000000) (Some 1490001800000) Sample.names
         Sample.listing]
      (Responded
         (ask (Some (T "ROOM_AVAILABLE_MESSAGE" [Attr (Str "Room A")]))
              (Some (T "ROOM_AVAILABLE_REPROMPT" [Attr (Str "Room A")])))
         Sample.confirming).
Proof. reflexivity. Qed.

(** ** The deferred and the callbacks of findFreeRoom *)

Example sample_confirmation :
  handle (Sample.world_with Sample.listing_reply [] Sample.created_reply)
    Sample.confirming EvYesIntent Undefined
  = mkTurn
      [call_postRoom (Str "room.a@example.com") (Str "Room A")
         (Some 1490000000000) (Some 1490001800000)]
      (Responded
         (tellWithCard
            (T "ROOM_BOOKED" [Attr (Str "Room A"); Minutes (Some (30 # 1)%Q)])
            (T "CARD_ROOM_BOOKED_TITLE" [Attr (Str "Room A")])
            (T "CARD_ROOM_BOOKED_CONTENT" [Attr (Str "Room A"); Minutes (Some (30 # 1)%Q)]))
         Sample.confirming).
Proof. reflexivity. Qed.

(** The shape of a reply that carries a list of events. *)
Lemma events_of_inv (r : reply) (events : list value) :
  events_of r = Some events ->
  exists props,
    err r = Null /\ response_body r = JSON (Obj props)
    /\ assoc "error" props = None /\ assoc "value" props = Some (Arr events).
Proof.
  destruct r as [e b]. unfold events_of. simpl.
  destruct e; try discriminate.
  destruct b as [|parsed]; [discriminate|].
  destruct parsed as [| |?|?|?|?|props]; try discriminate.
  destruct (assoc "error" props) eqn:Herr; [discriminate|].
  destruct (assoc "value" props) as [v|] eqn:Hval; [|discriminate].
  destruct v as [| |?|?|?|items|?]; try discriminate.
  intros H; injection H as <-. exists props. auto.
Qed.

(** The conversion of an array to text, by its elements. *)
Lemma text_is_empty_Arr (items : list value) :
  text_is_empty (Arr items)
  = (es <- elements_are_empty items ;;
     match es with
     | [] => Normal true
     | [e] => Normal e
     | _ => Normal false
     end).
Proof. reflexivity. Qed.

(** Events that convert to text print as something. *)
Lemma plain_events_print (events : list value) :
  forallb is_plain_event events = true ->
  elements_are_empty events = Normal (map (fun _ => false) events).
Proof.
  induction events as [|ev rest IH]; simpl; [reflexivity|].
  intros H. apply andb_true_iff in H. destruct H as [Hev Hrest].
  rewrite (IH Hrest). destruct ev as [| |?|?|?|?|props]; try discriminate Hev.
  simpl in Hev |- *. destruct (owns_toString props); [discriminate Hev | reflexivity].
Qed.

(** Objects print as something, or one of them cannot be converted. *)
Lemma events_print_or_throw (events : list value) :
  forallb is_event events = true ->
  elements_are_empty events = Normal (map (fun _ => false) events)
  \/ elements_are_empty events = Throw TypeError.
Proof.
  induction events as [|ev rest IH]; simpl; [left; reflexivity|].
  intros H. apply andb_true_iff in H. destruct H as [Hev Hrest].
  destruct ev as [| |?|?|?|?|props]; try discriminate Hev. simpl.
  destruct (owns_toString props); [right; reflexivity|]. simpl.
  destruct (IH Hrest) as [-> | ->]; [left | right]; reflexivity.
Qed.

Section Callbacks.

Variables (calendar : value) (r : reply) (d : deferred).

Lemma resolve_settled (v : value) : settled d = true -> resolve v d = d.
Proof. destruct d; simpl; intros H; [discriminate H | reflexivity | reflexivity]. Qed.

Lemma reject_settled (v : value) : settled d = true -> reject v d = d.
Proof. destruct d; simpl; intros H; [discriminate H | reflexivity | reflexivity]. Qed.

(** With a list of events in the body, the callback comes down to the
    comparison of the list against the empty string. *)
Lemma callback_on_events (events : list value) :
  events_of r = Some events ->
  findFreeRoom_callback calendar r d
  = (free <- text_is_empty (Arr events) ;;
     if free then creds <- credentials calendar ;; Normal (resolve creds d)
     else Normal d).
Proof.
  intros Hev. apply events_of_inv in Hev. destruct Hev as (props & He & Hb & Herr & Hval).
  unfold findFreeRoom_callback. rewrite Hb, He. simpl JSON_parse. cbn [JS.bind truthy].
  unfold get. rewrite Herr, Hval. reflexivity.
Qed.

(** A Busy answer whose events convert to text leaves the deferred as it
    is. *)
Lemma callback_busy :
  plainly_busy r = true -> findFreeRoom_callback calendar r d = Normal d.
Proof.
  unfold plainly_busy. destruct (classify r) as [[| |?]|] eqn:Hc; try discriminate.
  destruct (events_of r) as [events|] eqn:Hev; [|discriminate].
  intros Hplain. rewrite (callback_on_events events Hev).
  rewrite text_is_empty_Arr, (plain_events_print events Hplain).
  revert Hc. unfold classify. destruct (error_of r); [discriminate|]. rewrite Hev.
  destruct events as [|ev [|ev' rest]]; [discriminate | reflexivity | reflexivity].
Qed.

(** A Busy answer leaves the deferred as it is, or the conversion of one of
    its events throws. *)
Lemma callback_busy_or_throws :
  classify r = Some Busy ->
  findFreeRoom_callback calendar r d = Normal d
  \/ findFreeRoom_callback calendar r d = Throw TypeError.
Proof.
  unfold classify. destruct (error_of r); [discriminate|].
  destruct (events_of r) as [[|ev rest]|] eqn:Hev; try discriminate.
  destruct (forallb is_event (ev :: rest)) eqn:Hall; [|discriminate].
  intros _. rewrite (callback_on_events _ Hev). rewrite text_is_empty_Arr.
  destruct (events_print_or_throw _ Hall) as [-> | ->]; [left | right; reflexivity].
  destruct rest; reflexivity.
Qed.

(** An Error answer rejects with its cause. *)
Lemma callback_error (cause : value) :
  classify r = Some (Error cause) ->
  findFreeRoom_callback calendar r d = Normal (reject cause d).
Proof.
  destruct r as [e b]. unfold classify, findFreeRoom_callback.
  destruct (error_of (mkReply e b)) as [c|] eqn:Hc.
  - intros H; injection H as ->. revert Hc. unfold error_of. simpl.
    destruct b as [|parsed]; [discriminate|]. simpl.
    destruct (truthy e); [intros H; injection H as ->; reflexivity|].
    destruct parsed as [| |?|?|?|?|props]; try discriminate. simpl.
    destruct (assoc "error" props) as [x|]; [|discriminate]. simpl.
    destruct (truthy x) eqn:Hx; [|discriminate].
    destruct x as [| |?|?|?|?|xp]; simpl in Hx |- *; try discriminate;
      try (intros H; injection H as <-; reflexivity).
    destruct (assoc "message" xp); intros H; injection H as <-; reflexivity.
  - destruct (events_of (mkReply e b)) as [[|ev rest]|]; try discriminate.
    destruct (forallb is_event (ev :: rest)); discriminate.
Qed.

(** A Free answer resolves with the credentials of its calendar. *)
Lemma callback_free (creds : value) :
  classify r = Some Free ->
  credentials calendar = Normal creds ->
  findFreeRoom_callback calendar r d = Normal (resolve creds d).
Proof.
  unfold classify. destruct (error_of r); [discriminate|].
  destruct (events_of r) as [[|ev rest]|] eqn:Hev; try discriminate.
  2:{ destruct (forallb is_event (ev :: rest)); discriminate. }
  intros _ Hcreds. apply events_of_inv in Hev.
  destruct Hev as (props & He & Hb & Herr & Hval).
  unfold findFreeRoom_callback. rewrite Hb, He. simpl. rewrite Herr, Hval. simpl.
  rewrite Hcreds. reflexivity.
Qed.

(** Once the deferred is settled a callback cannot change it. *)
Lemma callback_after_settlement (d' : deferred) :
  settled d = true ->
  findFreeRoom_callback calendar r d = Normal d' -> d' = d.
Proof.
  intros Hs. unfold findFreeRoom_callback, JS.bind.
  destruct (JSON_parse (response_body r)) as [parsed|]; [|discriminate].
  destruct (truthy (err r)).
  { rewrite reject_settled by exact Hs. intros H; injection H as <-; reflexivity. }
  destruct (get parsed "error") as [x|]; [|discriminate].
  destruct (truthy x).
  { destruct (get x "message"); [|discriminate].
    rewrite reject_settled by exact Hs. intros H; injection H as <-; reflexivity. }
  destruct (get parsed "value") as [v|]; [|discriminate].
  destruct (loose_eq_empty v) as [[|]|]; [| |discriminate].
  - destruct (credentials calendar); [|discriminate].
    rewrite resolve_settled by exact Hs. intros H; injection H as <-; reflexivity.
  - intros H; injection H as <-; reflexivity.
Qed.

End Callbacks.

(** Results that arrive after the deferred has settled are discarded. *)
Lemma run_callbacks_settled (d : deferred) (arrivals : list (value * reply)) :
  settled d = true -> fst (run_callbacks d arrivals) = d.
Proof.
  intros Hs. induction arrivals as [|[c r] rest IH]; simpl; [reflexivity|].
  destruct (findFreeRoom_callback c r d) as [d'|e] eqn:Hcb; [|reflexivity].
  apply callback_after_settlement in Hcb; [|exact Hs]. subst d'. exact IH.
Qed.

Lemma observe_settled (d : deferred) (arrivals : list (value * reply)) :
  settled d = true -> observe (run_callbacks d arrivals) = observe (d, None).
Proof.
  intros Hs. pose proof (run_callbacks_settled d arrivals Hs) as H.
  destruct (run_callbacks d arrivals) as [d' ex]. simpl in H. subst d'.
  destruct d; [discriminate Hs | reflexivity | reflexivity].
Qed.

(** While every answer is Busy the deferred stays pending. *)
Lemma run_callbacks_busy (arrivals : list (value * reply)) :
  Forall (fun cr => plainly_busy (snd cr) = true) arrivals ->
  run_callbacks Pending arrivals = (Pending, None).
Proof.
  induction 1 as [|[c r] rest Hb _ IH]; simpl; [reflexivity|].
  simpl in Hb. rewrite (callback_busy c r Pending Hb). exact IH.
Qed.

Lemma run_callbacks_app_busy (pre rest : list (value * reply)) :
  Forall (fun cr => plainly_busy (snd cr) = true) pre ->
  run_callbacks Pending (pre ++ rest)%list = run_callbacks Pending rest.
Proof.
  induction 1 as [|[c r] pre' Hb _ IH]; simpl; [reflexivity|].
  simpl in Hb. rewrite (callback_busy c r Pending Hb). exact IH.
Qed.

(** Busy answers ahead of the others leave the run to them, or the
    conversion of one of their events ends it. *)
Lemma run_callbacks_app_busy_or_throws (pre rest : list (value * reply)) :
  Forall (fun cr => classify (snd cr) = Some Busy) pre ->
  run_callbacks Pending (pre ++ rest)%list = run_callbacks Pending rest
  \/ run_callbacks Pending (pre ++ rest)%list = (Pending, Some TypeError).
Proof.
  induction 1 as [|[c r] pre' Hb _ IH]; simpl; [left; reflexivity|].
  simpl in Hb. destruct (callback_busy_or_throws c r Pending Hb) as [-> | ->];
    [exact IH | right; reflexivity].
Qed.

(** ** The availability search *)

Lemma credentials_shape (calendar creds : value) :
  credentials calendar = Normal creds ->
  exists n a m,
    creds = Obj [("ownerName", n); ("ownerAddress", a); ("name", m)]
    /\ get calendar "name" = Normal m.
Proof.
  unfold credentials, JS.bind.
  destruct (get calendar "owner") as [o|]; [|discriminate].
  destruct (get o "name") as [n|]; [|discriminate].
  destruct (get o "address") as [a|]; [|discriminate].
  destruct (get calendar "name") as [m|]; [|discriminate].
  intros H; injection H as <-. exists n, a, m. split; reflexivity.
Qed.

Lemma credentials_truthy (calendar creds : value) :
  credentials calendar = Normal creds -> truthy creds = true.
Proof.
  intros H. apply credentials_shape in H. destruct H as (n & a & m & -> & _).
  reflexivity.
Qed.

(** All answers Busy, with events that convert to text: the promise of
    [findFreeRoom] is never settled. *)
Lemma all_busy_never_settles (namesToFind : list string) (parsedCals : value)
  (order : list (nat * reply)) (sent : list value) :
  forEach_issue namesToFind parsedCals = (sent, None) ->
  Forall (fun cr => plainly_busy (snd cr) = true) (deliver sent order) ->
  findFreeRoom namesToFind parsedCals order = mkSearch None Unsettled.
Proof.
  intros Hsent Hbusy. unfold findFreeRoom. rewrite Hsent.
  rewrite (run_callbacks_busy _ Hbusy). reflexivity.
Qed.

(** C1 (fails in the code).  Every query of the search answers Busy: the
    specification expects the settled outcome NoneFree.  Here the two listed rooms
    both answer with one event; the promise of [findFreeRoom] stays pending,
    the caller reads no outcome from it, and the DurationIntent invocation
    that started the search ends without a response. *)
Theorem all_busy_leaves_the_search_pending :
  let order := [(0%nat, Sample.busy_reply); (1%nat, Sample.busy_reply)] in
  let w := Sample.world_with Sample.listing_reply order Sample.created_reply in
  forEach_issue Sample.names Sample.listing = ([Sample.room_a; Sample.room_b], None)
  /\ Forall (fun cr => classify (snd cr) = Some Busy)
       (deliver [Sample.room_a; Sample.room_b] order)
  /\ findFreeRoom Sample.names Sample.listing order = mkSearch None Unsettled
  /\ availability Unsettled = None
  /\ turn_end (handle w Sample.collecting EvDurationIntent (Str "PT30M")) = NoResponse.
Proof.
  cbv zeta. split; [reflexivity|]. split.
  { repeat constructor. }
  split.
  { apply (all_busy_never_settles _ _ _ [Sample.room_a; Sample.room_b]);
      [reflexivity | repeat constructor]. }
  split; reflexivity.
Qed.

Lemma first_error_rejects (arrivals : list (value * reply)) (cause : value) :
  Forall (fun cr => busy_or_error (snd cr) = true) arrivals ->
  first_error arrivals = Some cause ->
  observe (run_callbacks Pending arrivals) = Settled_rejected cause.
Proof.
  induction 1 as [|[c r] rest Hhead _ IH]; simpl; [discriminate|].
  unfold busy_or_error in Hhead. simpl in Hhead.
  destruct (classify r) as [[| |cause']|] eqn:Hr; try discriminate Hhead.
  - intros Hfirst. rewrite (callback_busy c r Pending Hhead). apply IH, Hfirst.
  - intros Hfirst; injection Hfirst as ->.
    rewrite (callback_error c r Pending cause Hr). simpl.
    apply (observe_settled (Rejected cause)). reflexivity.
Qed.

(** C2 (fails in the code).  No answer is Free, one is Busy and one is an
    Error: the specification expects Failed with the cause of the Error.  The
    callback parses the body before it looks at [err], so an Error that
    comes without a readable body (a connection that was reset, an answer
    that is not JSON text) makes it throw SyntaxError: the promise is left
    pending, the caller reads no outcome from it, and the DurationIntent
    invocation ends with the exception instead of the error card.  The
    defect is the one of C7. *)
Theorem unreadable_error_is_not_reported_as_failed :
  let reset := [(1%nat, Sample.busy_reply); (0%nat, Sample.unreachable_reply)] in
  let garbled := [(1%nat, Sample.busy_reply); (0%nat, mkReply Null NotJSON)] in
  let w := Sample.world_with Sample.listing_reply reset Sample.created_reply in
  classify Sample.busy_reply = Some Busy
  /\ lookup_error Sample.unreachable_reply = true
  /\ lookup_error (mkReply Null NotJSON) = true
  /\ findFreeRoom Sample.names Sample.listing reset = mkSearch None (Uncaught SyntaxError)
  /\ findFreeRoom Sample.names Sample.listing garbled
     = mkSearch None (Uncaught SyntaxError)
  /\ availability (Uncaught SyntaxError) = None
  /\ turn_end (handle w Sample.collecting EvDurationIntent (Str "PT30M"))
     = Crashed SyntaxError.
Proof. cbv zeta. repeat split. Qed.

(** X21.  No Free answer, every answer Busy (with events that convert to
    text) or an Error that comes in a body of JSON text, and at least one
    such Error: the promise is rejected with the cause of the Error that
    arrived first, whatever the completion order, and the caller reads Failed
    with that cause. *)
Theorem first_readable_error_rejects_the_search (namesToFind : list string)
  (parsedCals : value) (order : list (nat * reply)) (sent : list value)
  (cause : value) :
  forEach_issue namesToFind parsedCals = (sent, None) ->
  Forall (fun cr => busy_or_error (snd cr) = true) (deliver sent order) ->
  first_error (deliver sent order) = Some cause ->
  findFreeRoom namesToFind parsedCals order = mkSearch None (Settled_rejected cause)
  /\ availability (Settled_rejected cause) = Some (Failed cause)
  /\ availability (Settled_rejected cause) <> Some NoneFree.
Proof.
  intros Hsent Hall Hfirst. split; [|split; [reflexivity | discriminate]].
  unfold findFreeRoom. rewrite Hsent.
  rewrite (first_error_rejects _ cause Hall Hfirst). reflexivity.
Qed.

Lemma first_readable_error_rejects_the_search_witness :
  findFreeRoom Sample.names Sample.listing
    [(1%nat, Sample.busy_reply); (0%nat, Sample.denied_reply)]
  = mkSearch None (Settled_rejected (Str "Access token has expired."))
  /\ availability (Settled_rejected (Str "Access token has expired."))
     = Some (Failed (Str "Access token has expired."))
  /\ availability (Settled_rejected (Str "Access token has expired."))
     <> Some NoneFree.
Proof.
  apply (first_readable_error_rejects_the_search Sample.names Sample.listing
           [(1%nat, Sample.busy_reply); (0%nat, Sample.denied_reply)]
           [Sample.room_a; Sample.room_b]).
  - reflexivity.
  - repeat constructor.
  - reflexivity.
Defined.

(** C3 (fails in the code).  A Free answer is in the run: the specification
    expects Resolved with its candidate.  The callback rejects on the first
    Error without waiting for the other answers, so an Error that arrives
    before the Free answer has already settled the promise.  Room A is
    throttled, Room B is free and answers second: the caller reads Failed.
    The defect is the one of C1: the callback keeps no account of the
    queries that have settled. *)
Theorem free_after_error_is_lost :
  let order := [(0%nat, Sample.throttled_reply); (1%nat, Sample.free_reply)] in
  classify Sample.throttled_reply = Some (Error (Str "Too many requests."))
  /\ classify Sample.free_reply = Some Free
  /\ credentials Sample.room_b
     = Normal (Obj [("ownerName", Str "Room B");
                    ("ownerAddress", Str "room.b@example.com");
                    ("name", Str "Room B")])
  /\ findFreeRoom Sample.names Sample.listing order
     = mkSearch None (Settled_rejected (Str "Too many requests."))
  /\ availability (Settled_rejected (Str "Too many requests."))
     = Some (Failed (Str "Too many requests.")).
Proof. cbv zeta. repeat split. Qed.

(** X22.  When a Free answer arrives with only Busy answers before it (their
    events converting to text), the promise is resolved with the credentials
    of that calendar (the calendar names its owner, so the credentials can be
    built); whatever arrives afterwards, an Error included, changes
    nothing. *)
Theorem first_free_wins (namesToFind : list string) (parsedCals : value)
  (order : list (nat * reply)) (sent : list value)
  (pre post : list (value * reply)) (calendar : value) (r : reply) (creds : value) :
  forEach_issue namesToFind parsedCals = (sent, None) ->
  deliver sent order = (pre ++ (calendar, r) :: post)%list ->
  Forall (fun cr => plainly_busy (snd cr) = true) pre ->
  classify r = Some Free ->
  credentials calendar = Normal creds ->
  findFreeRoom namesToFind parsedCals order = mkSearch None (Settled_resolved creds)
  /\ availability (Settled_resolved creds) = Some (Resolved creds).
Proof.
  intros Hsent Hsplit Hpre Hfree Hcreds. split.
  - unfold findFreeRoom. rewrite Hsent. rewrite Hsplit.
    rewrite (run_callbacks_app_busy _ _ Hpre). simpl.
    rewrite (callback_free calendar r Pending creds Hfree Hcreds). simpl.
    rewrite (observe_settled (Fulfilled creds)); reflexivity.
  - simpl. rewrite (credentials_truthy _ _ Hcreds). reflexivity.
Qed.

Lemma first_free_wins_witness :
  let creds := Obj [("ownerName", Str "Room B");
                    ("ownerAddress", Str "room.b@example.com");
                    ("name", Str "Room B")] in
  findFreeRoom Sample.names Sample.listing
    [(0%nat, Sample.busy_reply); (1%nat, Sample.free_reply)]
  = mkSearch None (Settled_resolved creds)
  /\ availability (Settled_resolved creds) = Some (Resolved creds).
Proof.
  apply (first_free_wins Sample.names Sample.listing
           [(0%nat, Sample.busy_reply); (1%nat, Sample.free_reply)]
           [Sample.room_a; Sample.room_b]
           [(Sample.room_a, Sample.busy_reply)] [] Sample.room_b Sample.free_reply).
  - reflexivity.
  - reflexivity.
  - repeat constructor.
  - reflexivity.
  - reflexivity.
Defined.

(** ** The allow-list *)

Lemma index_from_found (namesToFind : list string) (s : string) :
  forall i, index_from i namesToFind s <> -1 -> In s namesToFind.
Proof.
  induction namesToFind as [|n rest IH]; intros i; simpl.
  - intros H; contradiction H; reflexivity.
  - destruct (String.eqb_spec n s) as [->|_].
    + intros _; left; reflexivity.
    + intros H; right; exact (IH _ H).
Qed.

Lemma listed_true (namesToFind : list string) (calendar : value) :
  listed namesToFind calendar = Normal true ->
  exists s, get calendar "name" = Normal (Str s) /\ In s namesToFind.
Proof.
  unfold listed, JS.bind. destruct (get calendar "name") as [name|]; [|discriminate].
  intros H; injection H as H. unfold truthy, bitnot in H.
  apply negb_true_iff, Z.eqb_neq in H.
  destruct name; simpl in H; try (contradiction H; reflexivity).
  exists s. split; [reflexivity|].
  apply (index_from_found _ _ 0). intros Heq. apply H. rewrite Heq. reflexivity.
Qed.

Lemma issue_sent (namesToFind : list string) (calendars : list value) :
  forall sent stop, issue namesToFind calendars = (sent, stop) ->
  Forall (fun c => In c calendars /\ listed namesToFind c = Normal true) sent.
Proof.
  induction calendars as [|c rest IH]; simpl; intros sent stop.
  - intros H; injection H as <- _; constructor.
  - destruct (listed namesToFind c) as [[|]|] eqn:Hl.
    + destruct (calViewUrl_ok c); [|intros H; injection H as <- _; constructor].
      destruct (issue namesToFind rest) as [sent' stop'].
      intros H; injection H as <- _. constructor.
      * split; [left; reflexivity | exact Hl].
      * specialize (IH sent' stop' eq_refl). revert IH. apply Forall_impl.
        intros c' [Hin Hl']. split; [right; exact Hin | exact Hl'].
    + intros H. specialize (IH sent stop H). revert IH. apply Forall_impl.
      intros c' [Hin Hl']. split; [right; exact Hin | exact Hl'].
    + intros H; injection H as <- _; constructor.
Qed.

Lemma deliver_sent (sent : list value) (order : list (nat * reply)) :
  forall c r, In (c, r) (deliver sent order) -> In c sent.
Proof.
  induction order as [|[i r'] rest IH]; simpl; intros c r; [contradiction|].
  destruct (nth_error sent i) as [c'|] eqn:Hn.
  - intros [H|H]; [injection H as <- _; exact (nth_error_In _ _ Hn) | exact (IH _ _ H)].
  - apply IH.
Qed.

Lemma callback_fulfils (calendar : value) (r : reply) (v : value) :
  findFreeRoom_callback calendar r Pending = Normal (Fulfilled v) ->
  credentials calendar = Normal v.
Proof.
  unfold findFreeRoom_callback, JS.bind.
  destruct (JSON_parse (response_body r)) as [parsed|]; [|discriminate].
  destruct (truthy (err r)); [discriminate|].
  destruct (get parsed "error") as [x|]; [|discriminate].
  destruct (truthy x).
  { destruct (get x "message"); discriminate. }
  destruct (get parsed "value") as [val|]; [|discriminate].
  destruct (loose_eq_empty val) as [[|]|]; try discriminate.
  destruct (credentials calendar) as [creds|]; [|discriminate].
  simpl. intros H; injection H as <-. reflexivity.
Qed.

Lemma run_callbacks_fulfilled (arrivals : list (value * reply)) (v : value) :
  fst (run_callbacks Pending arrivals) = Fulfilled v ->
  exists c r, In (c, r) arrivals /\ credentials c = Normal v.
Proof.
  induction arrivals as [|[c r] rest IH]; simpl; [discriminate|].
  destruct (findFreeRoom_callback c r Pending) as [d'|e] eqn:Hcb; [|discriminate].
  destruct d' as [|v'|reason].
  - intros H. destruct (IH H) as (c0 & r0 & Hin & Hc). exists c0, r0. auto.
  - rewrite run_callbacks_settled by reflexivity. intros H; injection H as ->.
    exists c, r. split; [left; reflexivity | exact (callback_fulfils _ _ _ Hcb)].
  - rewrite run_callbacks_settled by reflexivity. discriminate.
Qed.

Lemma observe_resolved (run : deferred * option exn) (v : value) :
  observe run = Settled_resolved v -> fst run = Fulfilled v.
Proof.
  destruct run as [[|v'|reason] [e|]]; simpl; try discriminate;
    intros H; injection H as ->; reflexivity.
Qed.

(** The winning calendar of a search. *)
Lemma findFreeRoom_resolved (namesToFind : list string) (parsedCals : value)
  (order : list (nat * reply)) (creds : value) :
  fate (findFreeRoom namesToFind parsedCals order) = Settled_resolved creds ->
  exists calendars c,
    parsedCals = Arr calendars /\ In c calendars
    /\ listed namesToFind c = Normal true /\ credentials c = Normal creds.
Proof.
  unfold findFreeRoom.
  destruct (forEach_issue namesToFind parsedCals) as [sent stop] eqn:Hsent.
  simpl. intros H. apply observe_resolved, run_callbacks_fulfilled in H.
  destruct H as (c & r & Hin & Hcreds). apply deliver_sent in Hin.
  destruct parsedCals as [| |?|?|?|calendars|?];
    try (injection Hsent as <- _; contradiction Hin).
  simpl in Hsent.
  pose proof (issue_sent _ _ _ _ Hsent) as Hall. rewrite Forall_forall in Hall.
  destruct (Hall c Hin) as [Hc Hl]. exists calendars, c. auto.
Qed.

Lemma issue_skips (namesToFind : list string) (before after : list value)
  (calendar : value) :
  listed namesToFind calendar = Normal false ->
  issue namesToFind (before ++ calendar :: after)%list
  = issue namesToFind (before ++ after)%list.
Proof.
  intros Hskip. induction before as [|c rest IH]; simpl.
  - rewrite Hskip. reflexivity.
  - rewrite IH. reflexivity.
Qed.

(** C10.  A calendar-view request is sent only for a calendar whose name is
    one of [namesToFind]; a promise that is resolved carries the name of
    such a calendar; and a calendar whose name is not on the list can be
    taken out of the listing without any change to what the search does. *)
Theorem search_stays_within_the_allow_list (namesToFind : list string)
  (calendars : list value) (order : list (nat * reply)) :
  (forall sent stop, forEach_issue namesToFind (Arr calendars) = (sent, stop) ->
     Forall (fun c => In c calendars
                      /\ exists s, get c "name" = Normal (Str s) /\ In s namesToFind)
       sent)
  /\ (forall creds,
        fate (findFreeRoom namesToFind (Arr calendars) order) = Settled_resolved creds ->
        exists s, get creds "name" = Normal (Str s) /\ In s namesToFind)
  /\ (forall before after outsider,
        calendars = (before ++ outsider :: after)%list ->
        listed namesToFind outsider = Normal false ->
        forEach_issue namesToFind (Arr calendars)
        = forEach_issue namesToFind (Arr (before ++ after))
        /\ findFreeRoom namesToFind (Arr calendars) order
           = findFreeRoom namesToFind (Arr (before ++ after)) order).
Proof.
  split; [|split].
  - intros sent stop Hsent. simpl in Hsent.
    pose proof (issue_sent _ _ _ _ Hsent) as Hall.
    revert Hall. apply Forall_impl. intros c [Hin Hl]. split; [exact Hin|].
    exact (listed_true _ _ Hl).
  - intros creds Hres. apply findFreeRoom_resolved in Hres.
    destruct Hres as (cals & c & _ & _ & Hl & Hcreds).
    apply listed_true in Hl. destruct Hl as (s & Hname & Hin).
    apply credentials_shape in Hcreds. destruct Hcreds as (n & a & m & -> & Hm).
    rewrite Hname in Hm. injection Hm as <-. exists s. split; [reflexivity | exact Hin].
  - intros before after outsider -> Hskip.
    assert (forEach_issue namesToFind (Arr (before ++ outsider :: after))
            = forEach_issue namesToFind (Arr (before ++ after))) as Heq.
    { simpl. apply issue_skips, Hskip. }
    split; [exact Heq|]. unfold findFreeRoom. rewrite Heq. reflexivity.
Qed.

Lemma search_stays_within_the_allow_list_witness :
  Forall (fun c => In c [Sample.room_a; Sample.kitchen; Sample.room_b]
                   /\ exists s, get c "name" = Normal (Str s) /\ In s Sample.names)
    [Sample.room_a; Sample.room_b]
  /\ (exists s,
        get (Obj [("ownerName", Str "Room A");
                  ("ownerAddress", Str "room.a@example.com");
                  ("name", Str "Room A")]) "name" = Normal (Str s)
        /\ In s Sample.names)
  /\ findFreeRoom Sample.names Sample.listing
       [(1%nat, Sample.busy_reply); (0%nat, Sample.free_reply)]
     = findFreeRoom Sample.names (Arr [Sample.room_a; Sample.room_b])
         [(1%nat, Sample.busy_reply); (0%nat, Sample.free_reply)].
Proof.
  pose proof (search_stays_within_the_allow_list Sample.names
                [Sample.room_a; Sample.kitchen; Sample.room_b]
                [(1%nat, Sample.busy_reply); (0%nat, Sample.free_reply)])
    as (Hsent & Hres & Hout).
  split; [|split].
  - apply (Hsent _ None). reflexivity.
  - apply Hres. reflexivity.
  - apply (Hout [Sample.room_a] [Sample.room_b] Sample.kitchen); reflexivity.
Defined.

(** ** The duration bounds *)

Lemma too_long_iff (d : Duration) :
  negb (Qle_bool (asHours d) 2) = true <-> 7200000 < asMilliseconds d.
Proof.
  rewrite negb_true_iff, <- not_true_iff_false, Qle_bool_iff.
  unfold asHours, Qle. simpl. lia.
Qed.

Lemma too_short_iff (d : Duration) :
  Qle_bool (asHours d) 0 = true <-> asMilliseconds d <= 0.
Proof.
  rewrite Qle_bool_iff. unfold asHours, Qle. simpl. lia.
Qed.

Lemma getRoom_calls_directory (w : world) (this : context) :
  exists rest, fst (fst (getRoom w this)) = call_getCalendars :: rest.
Proof.
  unfold getRoom. destruct (getCalendars w) as [[|parsedCals|calError]|e].
  - exists []; reflexivity.
  - destruct (findFreeRoom (config_testNames w) parsedCals (views_order w))
      as [[stop|] [creds|reason|e|]]; try (eexists; reflexivity).
    destruct (store_credentials creds this); eexists; reflexivity.
  - exists []; reflexivity.
  - exists []; reflexivity.
Qed.

Lemma room_answer_calls (made : list remote_call) (this : context) (o : outcome) :
  calls (timeModeHandlers.room_answer made this o) = made.
Proof.
  unfold timeModeHandlers.room_answer.
  destruct o as [creds|reason|e|]; try reflexivity.
  destruct (truthy creds); reflexivity.
Qed.

(** C6.  In the duration state, with d the length in milliseconds of the
    duration supplied and the cap at two hours: for 0 < d <= cap the handler
    stores the window and starts the availability search, its first call
    being the directory query; for d <= 0 and for d > cap it makes no call
    and answers with the too-short and the too-long reprompt, the session
    staying in the duration state. *)
Theorem duration_bounds (w : world) (s : session_attributes) (slot : value) :
  STATE s = TIMEMODE ->
  let d := moment_duration w slot in
  let t := handle w s EvDurationIntent slot in
  (0 < asMilliseconds d <= 7200000 ->
     (exists made this o,
        getRoom w (setDuration w d (mkContext TIMEMODE s slot)) = (made, this, o)
        /\ t = timeModeHandlers.room_answer made this o)
     /\ exists rest, calls t = call_getCalendars :: rest)
  /\ (asMilliseconds d <= 0 ->
        t = mkTurn []
              (Responded
                 (ask (Some (T "TIME_UNHANDLED_MESSAGE" []))
                      (Some (T "TIME_UNHANDLED_REPROMPT" [])))
                 (reprompted s (T "TIME_UNHANDLED_MESSAGE" [])
                    (T "TIME_UNHANDLED_REPROMPT" []))))
  /\ (7200000 < asMilliseconds d ->
        t = mkTurn []
              (Responded
                 (ask (Some (T "TIME_TOO_LONG_MESSAGE" []))
                      (Some (T "TIME_TOO_LONG_REPROMPT" [])))
                 (reprompted s (T "TIME_TOO_LONG_MESSAGE" [])
                    (T "TIME_TOO_LONG_REPROMPT" [])))).
Proof.
  intros Hst d t. subst t. unfold handle. rewrite Hst. simpl.
  unfold timeModeHandlers.DurationIntent. simpl. fold d.
  destruct (negb (Qle_bool (asHours d) 2)) eqn:Hlong.
  - apply too_long_iff in Hlong. split; [lia|]. split; [lia|]. intros _. reflexivity.
  - assert (asMilliseconds d <= 7200000) as Hcap.
    { destruct (Z.le_gt_cases (asMilliseconds d) 7200000) as [H|H]; [exact H|].
      apply too_long_iff in H. rewrite H in Hlong. discriminate. }
    destruct (Qle_bool (asHours d) 0) eqn:Hshort.
    + apply too_short_iff in Hshort. split; [lia|]. split; [|lia]. intros _. reflexivity.
    + assert (0 < asMilliseconds d) as Hpos.
      { destruct (Z.le_gt_cases (asMilliseconds d) 0) as [H|H]; [|lia].
        apply too_short_iff in H. rewrite H in Hshort. discriminate. }
      split; [|split; lia]. intros _.
      pose proof (getRoom_calls_directory w (setDuration w d (mkContext TIMEMODE s slot)))
        as [rest Hrest].
      destruct (getRoom w (setDuration w d (mkContext TIMEMODE s slot)))
        as [[made this] o] eqn:Hroom.
      split.
      * exists made, this, o. split; reflexivity.
      * exists rest. rewrite room_answer_calls. exact Hrest.
Qed.


Lemma duration_bounds_witness :
  let w := Sample.world_with Sample.listing_reply
             [(1%nat, Sample.busy_reply); (0%nat, Sample.free_reply)]
             Sample.created_reply in
  (exists rest,
     calls (handle w Sample.collecting EvDurationIntent (Str "PT2H"))
     = call_getCalendars :: rest)
  /\ handle w Sample.collecting EvDurationIntent (Str "five minutes")
     = mkTurn []
         (Responded
            (ask (Some (T "TIME_UNHANDLED_MESSAGE" []))
                 (Some (T "TIME_UNHANDLED_REPROMPT" [])))
            (reprompted Sample.collecting (T "TIME_UNHANDLED_MESSAGE" [])
               (T "TIME_UNHANDLED_REPROMPT" [])))
  /\ handle w Sample.collecting EvDurationIntent (Str "PT3H")
     = mkTurn []
         (Responded
            (ask (Some (T "TIME_TOO_LONG_MESSAGE" []))
                 (Some (T "TIME_TOO_LONG_REPROMPT" [])))
            (reprompted Sample.collecting (T "TIME_TOO_LONG_MESSAGE" [])
               (T "TIME_TOO_LONG_REPROMPT" []))).
Proof.
  intros w. split; [|split].
  - apply (duration_bounds w Sample.collecting (Str "PT2H") eq_refl). simpl. lia.
  - apply (duration_bounds w Sample.collecting (Str "five minutes") eq_refl). simpl. lia.
  - apply (duration_bounds w Sample.collecting (Str "PT3H") eq_refl). simpl. lia.
Defined.

(** ** Restart *)

(** C5 as stated fails: restart in the confirmation state empties the state
    and answers with the welcome prompt of a launch, not with the duration
    question of the start-booking action; and a session without state has no
    listener for the restart intent, which goes to its Unhandled one. *)
Lemma restart_does_not_enter_the_duration_state :
  let w := Sample.world_with Sample.listing_reply [] Sample.created_reply in
  handle w Sample.confirming EvStartOverIntent Undefined
  = mkTurn []
      (Responded
         (ask (Some (T "WELCOME_MESSAGE" [T "BUSINESS_NAME" []]))
              (Some (T "WELCOME_REPROMPT" [T "SKILL_NAME" []])))
         (mkAttributes NoState Undefined Undefined Undefined None None None
            (Some (T "WELCOME_MESSAGE" [T "BUSINESS_NAME" []]))
            (Some (T "WELCOME_REPROMPT" [T "SKILL_NAME" []]))))
  /\ NoState <> TIMEMODE
  /\ turn_end (sessionHandlers.BookIntent w (mkContext NoState fresh_session Undefined))
     = Responded
         (ask (Some (T "TIME_DURATION_MESSAGE" [])) (Some (T "TIME_DURATION_REPROMPT" [])))
         Sample.collecting
  /\ handle w fresh_session EvStartOverIntent Undefined
     = mkTurn []
         (Responded
            (ask (Some (T "UNHANDLED_MESSAGE" [])) (Some (T "UNHANDLED_REPROMPT" [])))
            (mkAttributes NoState Undefined Undefined Undefined None None None
               (Some (T "UNHANDLED_MESSAGE" [])) (Some (T "UNHANDLED_REPROMPT" [])))).
Proof. cbv zeta. repeat split. discriminate. Qed.

(** C5 (amended).  In the duration state and in the confirmation state the
    restart intent makes no remote call, clears every booking attribute
    together with the stored prompt, empties the state and answers with the
    welcome prompt of a launch, which becomes the stored prompt. *)
Theorem restart_returns_to_the_welcome (w : world) (s : session_attributes)
  (slot : value) :
  STATE s = TIMEMODE \/ STATE s = CONFIRMMODE ->
  handle w s EvStartOverIntent slot
  = mkTurn []
      (Responded
         (ask (Some (T "WELCOME_MESSAGE" [T "BUSINESS_NAME" []]))
              (Some (T "WELCOME_REPROMPT" [T "SKILL_NAME" []])))
         (mkAttributes NoState Undefined Undefined Undefined None None None
            (Some (T "WELCOME_MESSAGE" [T "BUSINESS_NAME" []]))
            (Some (T "WELCOME_REPROMPT" [T "SKILL_NAME" []]))))
  /\ booking_fields_clear
       (mkAttributes NoState Undefined Undefined Undefined None None None
          (Some (T "WELCOME_MESSAGE" [T "BUSINESS_NAME" []]))
          (Some (T "WELCOME_REPROMPT" [T "SKILL_NAME" []]))) = true.
Proof.
  intros Hst. split; [|reflexivity]. unfold handle.
  destruct Hst as [-> | ->]; reflexivity.
Qed.

Lemma restart_returns_to_the_welcome_witness :
  handle (Sample.world_with Sample.listing_reply [] Sample.created_reply)
    Sample.collecting EvStartOverIntent Undefined
  = mkTurn []
      (Responded
         (ask (Some (T "WELCOME_MESSAGE" [T "BUSINESS_NAME" []]))
              (Some (T "WELCOME_REPROMPT" [T "SKILL_NAME" []])))
         (mkAttributes NoState Undefined Undefined Undefined None None None
            (Some (T "WELCOME_MESSAGE" [T "BUSINESS_NAME" []]))
            (Some (T "WELCOME_REPROMPT" [T "SKILL_NAME" []])))).
Proof.
  apply (restart_returns_to_the_welcome
           (Sample.world_with Sample.listing_reply [] Sample.created_reply)
           Sample.collecting Undefined).
  left. reflexivity.
Defined.

(** ** Failures of the remote calls *)

(** A body that is not JSON text makes each of the three callbacks throw,
    whatever [err] says and whatever the state of the deferred. *)
Lemma unreadable_body_throws (r : reply) (d : deferred) (calendar ownerName0 : value) :
  response_body r = NotJSON ->
  getCalendars_callback r d = Throw SyntaxError
  /\ findFreeRoom_callback calendar r d = Throw SyntaxError
  /\ postRoom_callback ownerName0 r d = Throw SyntaxError.
Proof.
  intros Hbody.
  unfold getCalendars_callback, findFreeRoom_callback, postRoom_callback.
  rewrite Hbody. repeat split.
Qed.

(** C7 (fails in the code).  The three callbacks parse the body before they
    look at [err].  A transport failure comes with an error and no body:
    each callback throws SyntaxError instead of rejecting its promise, and
    the DurationIntent and BookIntent invocations end with that exception
    instead of the error card. *)
Theorem transport_failure_escapes_the_handlers :
  let down := Sample.unreachable_reply in
  getCalendars_callback down Pending = Throw SyntaxError
  /\ findFreeRoom_callback Sample.room_a down Pending = Throw SyntaxError
  /\ postRoom_callback (Str "Room A") down Pending = Throw SyntaxError
  /\ handle (Sample.world_with down [] Sample.created_reply)
       Sample.collecting EvDurationIntent (Str "PT30M")
     = mkTurn [call_getCalendars] (Crashed SyntaxError)
  /\ handle (Sample.world_with Sample.listing_reply [(0%nat, down)] Sample.created_reply)
       Sample.collecting EvDurationIntent (Str "PT30M")
     = mkTurn [call_getCalendars;
               call_findFreeRoom (Some 1490000000000) (Some 1490001800000)
                 Sample.names Sample.listing]
         (Crashed SyntaxError)
  /\ handle (Sample.world_with Sample.listing_reply [] down)
       Sample.confirming EvBookIntent Undefined
     = mkTurn [call_postRoom (Str "room.a@example.com") (Str "Room A")
                 (Some 1490000000000) (Some 1490001800000)]
         (Crashed SyntaxError).
Proof. cbv zeta. repeat split. Qed.

(** A failure that the callback can read does reach the user as a card. *)
Example denied_directory_is_reported :
  handle (Sample.world_with Sample.denied_reply [] Sample.created_reply)
    Sample.collecting EvDurationIntent (Str "PT30M")
  = mkTurn [call_getCalendars]
      (Responded
         (tellWithCard (T "ROOM_ERROR" []) (T "ROOM_ERROR_CARD_TITLE" [])
            (Attr (Str "Access token has expired.")))
         (mkAttributes TIMEMODE Undefined Undefined Undefined
            (Some 1490000000000) (Some 1490001800000) (Some (30 # 1)%Q)
            (Some (T "TIME_DURATION_MESSAGE" [])) (Some (T "TIME_DURATION_REPROMPT" [])))).
Proof. reflexivity. Qed.

(** ** Dispatch *)

Lemma listener_In (registered : list (string * handler)) (key : string) (h : handler) :
  listener registered key = Some h -> In (key, h) registered.
Proof.
  induction registered as [|[name h0] rest IH]; simpl; [discriminate|].
  destruct (key =? name)%string eqn:Hk.
  - intros H; injection H as ->. apply String.eqb_eq in Hk. subst. left; reflexivity.
  - intros H. right. exact (IH H).
Qed.

Lemma list_ascii_of_string_app (a b : string) :
  list_ascii_of_string (a ++ b) = (list_ascii_of_string a ++ list_ascii_of_string b)%list.
Proof. induction a as [|c a IH]; simpl; [reflexivity | rewrite IH; reflexivity]. Qed.

(** The last characters of a string that ends in a given suffix are those of
    the suffix. *)
Lemma ending_of_app (name suffix : string) (k : nat) :
  (k <= List.length (list_ascii_of_string suffix))%nat ->
  firstn k (rev (list_ascii_of_string (name ++ suffix)))
  = firstn k (rev (list_ascii_of_string suffix)).
Proof.
  intros Hk. rewrite list_ascii_of_string_app, rev_app_distr, firstn_app.
  rewrite length_rev.
  replace (k - List.length (list_ascii_of_string suffix))%nat with 0%nat by lia.
  simpl. apply app_nil_r.
Qed.

(** Every table registers an Unhandled listener. *)
Lemma unhandled_is_registered (st : state) :
  listener listeners ("Unhandled" ++ state_string st) = Some (unhandled st).
Proof. destruct st; reflexivity. Qed.

Ltac other_table Hin E :=
  simpl in Hin;
  repeat (destruct Hin as [Hin | Hin];
          [injection Hin as Hin _; rewrite <- Hin in E; vm_compute in E; discriminate E|]);
  contradiction.

(** An event string names a listener of the table of the state it ends
    in. *)
Lemma listener_within_reach (st : state) (name : string) (h : handler) :
  listener listeners (name ++ state_string st) = Some h ->
  In (name ++ state_string st, h) (within_reach st).
Proof.
  intros H. apply listener_In in H. destruct st; cbn [within_reach]; [exact H | |].
  - pose proof (ending_of_app name "_TIMEMODE" 5 ltac:(simpl; lia)) as E.
    cbn [state_string] in H. unfold listeners in H.
    apply in_app_or in H. destruct H as [H | H]; [exfalso; other_table H E|].
    apply in_app_or in H. destruct H as [H | H]; [exfalso; other_table H E | exact H].
  - pose proof (ending_of_app name "_CONFIRMMODE" 5 ltac:(simpl; lia)) as E.
    cbn [state_string] in H. unfold listeners in H.
    apply in_app_or in H. destruct H as [H | H]; [exfalso; other_table H E|].
    apply in_app_or in H. destruct H as [H | H]; [exact H | exfalso; other_table H E].
Qed.

(** An invocation runs one listener of those within reach of its state: the
    one its event string names, or the Unhandled listener of the state when
    the string names none. *)
Lemma handle_runs_a_listener (w : world) (s : session_attributes) (ev : event_name)
  (slot : value) :
  exists key h,
    In (key, h) (within_reach (STATE s))
    /\ ((key = event_string ev ++ state_string (STATE s)
         /\ listener listeners key = Some h)
        \/ (key = "Unhandled" ++ state_string (STATE s)
            /\ listener listeners (event_string ev ++ state_string (STATE s)) = None))
    /\ handle w s ev slot = h w (mkContext (STATE s) s slot).
Proof.
  unfold handle. cbv zeta.
  destruct (listener listeners (event_string ev ++ state_string (STATE s)))
    as [h|] eqn:Hl.
  - exists (event_string ev ++ state_string (STATE s)), h.
    split; [exact (listener_within_reach _ _ _ Hl)|].
    split; [left; split; [reflexivity | exact Hl] | reflexivity].
  - exists ("Unhandled" ++ state_string (STATE s)), (unhandled (STATE s)).
    split; [apply listener_within_reach, unhandled_is_registered|].
    split; [right; split; reflexivity | reflexivity].
Qed.

(** The listeners within reach, one by one. *)
Ltac each_listener Hin :=
  cbv [within_reach listeners sessionHandlers_table timeModeHandlers_table
       confirmModeHandlers_table CreateStateHandler map app fst snd In] in Hin;
  repeat (destruct Hin as [Hin | Hin]; [injection Hin as <- <- | ]);
  [.. | contradiction].

(** ** Repeat *)

#[local] Arguments emitAsk : simpl never.
#[local] Arguments emit_response : simpl never.

Lemma repeat_emits_the_stored_prompt (w : world) (s : session_attributes)
  (slot : value) :
  handle w s EvRepeatIntent slot
  = mkTurn [] (Responded (ask (speechOutput s) (repromptSpeech s)) s).
Proof. destruct s as [st oa on rn stt et du so rs]. destruct st; reflexivity. Qed.

Lemma emitAsk_stores (sp rp : option speech) (this : context) (r : response)
  (s' : session_attributes) :
  turn_end (emitAsk sp rp this) = Responded r s' ->
  r = ask sp rp /\ speechOutput s' = sp /\ repromptSpeech s' = rp.
Proof.
  unfold emitAsk, emit_response, responseReady. simpl.
  destruct (state_truthy (handler_state this)); simpl;
    intros H; injection H as <- <-; repeat split.
Qed.

Lemma emit_response_ask (r0 : response) (this : context) (sp rp : option speech)
  (s' : session_attributes) :
  (forall a b, r0 <> ask a b) ->
  turn_end (emit_response r0 this) <> Responded (ask sp rp) s'.
Proof. unfold emit_response. simpl. intros Hr H. injection H as H _. exact (Hr _ _ H). Qed.

Lemma room_answer_stores (made : list remote_call) (this : context) (o : outcome)
  (sp rp : option speech) (s' : session_attributes) :
  turn_end (timeModeHandlers.room_answer made this o) = Responded (ask sp rp) s' ->
  speechOutput s' = sp /\ repromptSpeech s' = rp.
Proof.
  unfold timeModeHandlers.room_answer. destruct o as [creds|reason|e|].
  - destruct (truthy creds); cbn [turn_end]; intros H;
      apply emitAsk_stores in H; destruct H as (Hr & H1 & H2);
      injection Hr as -> ->; auto.
  - cbn [turn_end]. intros H. exfalso. revert H. apply emit_response_ask. discriminate.
  - discriminate.
  - discriminate.
Qed.

Lemma DurationIntent_stores (w : world) (this : context) (sp rp : option speech)
  (s' : session_attributes) :
  turn_end (timeModeHandlers.DurationIntent w this) = Responded (ask sp rp) s' ->
  speechOutput s' = sp /\ repromptSpeech s' = rp.
Proof.
  assert (forall a b this, turn_end (emitAsk a b this) = Responded (ask sp rp) s' ->
                           speechOutput s' = sp /\ repromptSpeech s' = rp) as Hask.
  { intros a b this0 Ha. apply emitAsk_stores in Ha. destruct Ha as (Hr & H1 & H2).
    injection Hr as -> ->. auto. }
  unfold timeModeHandlers.DurationIntent. cbv zeta. cbn [truthy_object].
  destruct (negb (Qle_bool (asHours (moment_duration w (slot_Duration this))) 2));
    [apply Hask|].
  destruct (Qle_bool (asHours (moment_duration w (slot_Duration this))) 0);
    [apply Hask|].
  destruct (getRoom _ _) as [[made this'] o].
  apply room_answer_stores.
Qed.

Lemma BookIntent_never_asks (w : world) (this : context) (sp rp : option speech)
  (s' : session_attributes) :
  turn_end (confirmModeHandlers.BookIntent w this) <> Responded (ask sp rp) s'.
Proof.
  unfold confirmModeHandlers.BookIntent. cbv zeta.
  destruct (postRoom w (ownerName (attributes this))) as [[|v|reason]|e];
    cbn [turn_end]; try discriminate;
    apply emit_response_ask; discriminate.
Qed.

Lemma ask_is_stored (w : world) (s : session_attributes) (ev : event_name)
  (slot : value) (sp rp : option speech) (s' : session_attributes) :
  turn_end (handle w s ev slot) = Responded (ask sp rp) s' ->
  speechOutput s' = sp /\ repromptSpeech s' = rp.
Proof.
  intros H.
  assert (forall a b this, turn_end (emitAsk a b this) = Responded (ask sp rp) s' ->
                           speechOutput s' = sp /\ repromptSpeech s' = rp) as Hask.
  { intros a b this Ha. apply emitAsk_stores in Ha. destruct Ha as (Hr & H1 & H2).
    injection Hr as -> ->. auto. }
  destruct (handle_runs_a_listener w s ev slot) as (key & h & Hin & _ & Heq).
  rewrite Heq in H. clear Heq.
  destruct (STATE s) eqn:Hst; each_listener Hin; simpl in H;
    try (exact (Hask _ _ _ H)); try discriminate H;
    try (exact (DurationIntent_stores _ _ _ _ _ H));
    try (exfalso; exact (BookIntent_never_asks _ _ _ _ _ H)).
Qed.

(** C8.  Whenever an invocation, in any state and for any request, answers
    with a prompt, the session it leaves behind stores exactly that speech
    and reprompt; and a repeat intent on that session answers with the same
    speech and reprompt, makes no call and leaves the session, its state
    included, as it was. *)
Theorem repeat_reproduces_the_last_prompt (w : world) (s : session_attributes)
  (ev : event_name) (slot : value) (sp rp : option speech) (s' : session_attributes) :
  turn_end (handle w s ev slot) = Responded (ask sp rp) s' ->
  speechOutput s' = sp /\ repromptSpeech s' = rp
  /\ forall w' slot',
       handle w' s' EvRepeatIntent slot' = mkTurn [] (Responded (ask sp rp) s').
Proof.
  intros H. destruct (ask_is_stored _ _ _ _ _ _ _ H) as [H1 H2].
  split; [exact H1|]. split; [exact H2|].
  intros w' slot'. rewrite repeat_emits_the_stored_prompt, H1, H2. reflexivity.
Qed.

Lemma repeat_reproduces_the_last_prompt_witness :
  let w := Sample.world_with Sample.listing_reply
             [(1%nat, Sample.busy_reply); (0%nat, Sample.free_reply)]
             Sample.created_reply in
  let sp := Some (T "ROOM_AVAILABLE_MESSAGE" [Attr (Str "Room A")]) in
  let rp := Some (T "ROOM_AVAILABLE_REPROMPT" [Attr (Str "Room A")]) in
  speechOutput Sample.confirming = sp /\ repromptSpeech Sample.confirming = rp
  /\ forall w' slot',
       handle w' Sample.confirming EvRepeatIntent slot'
       = mkTurn [] (Responded (ask sp rp) Sample.confirming).
Proof.
  intros w sp rp.
  apply (repeat_reproduces_the_last_prompt w Sample.collecting EvDurationIntent
           (Str "PT30M")).
  reflexivity.
Defined.

(** ** The booking attributes of a session *)

Lemma booking_fields_ok_ext (a b : session_attributes) :
  booking_fields a = booking_fields b -> booking_fields_ok a = booking_fields_ok b.
Proof.
  unfold booking_fields. intros H. injection H as H1 H2 H3 H4 H5 H6.
  unfold booking_fields_ok, window_all_or_none, room_all_or_none, room_within_window.
  rewrite H1, H2, H3, H4, H5, H6. reflexivity.
Qed.

Lemma responseReady_fields (this : context) :
  booking_fields (responseReady this) = booking_fields (attributes this).
Proof. unfold responseReady. destruct (state_truthy (handler_state this)); reflexivity. Qed.

Lemma emit_response_ok (r0 : response) (this : context) (r : response)
  (s' : session_attributes) :
  turn_end (emit_response r0 this) = Responded r s' ->
  booking_fields_ok (attributes this) = true ->
  booking_fields_ok s' = true.
Proof.
  unfold emit_response. cbn [turn_end]. intros H Hok. injection H as _ <-.
  rewrite (booking_fields_ok_ext _ _ (responseReady_fields this)). exact Hok.
Qed.

Lemma emitAsk_ok (sp rp : option speech) (this : context) (r : response)
  (s' : session_attributes) :
  turn_end (emitAsk sp rp this) = Responded r s' ->
  booking_fields_ok (attributes this) = true ->
  booking_fields_ok s' = true.
Proof.
  unfold emitAsk. intros H Hok. apply emit_response_ok in H; [exact H|]. exact Hok.
Qed.

Lemma room_answer_ok (made : list remote_call) (this : context) (o : outcome)
  (r : response) (s' : session_attributes) :
  turn_end (timeModeHandlers.room_answer made this o) = Responded r s' ->
  booking_fields_ok (attributes this) = true ->
  booking_fields_ok s' = true.
Proof.
  unfold timeModeHandlers.room_answer. destruct o as [creds|reason|e|].
  - destruct (truthy creds); cbn [turn_end]; intros H Hok;
      exact (emitAsk_ok _ _ _ _ _ H Hok).
  - cbn [turn_end]. intros H Hok. exact (emit_response_ok _ _ _ _ H Hok).
  - discriminate.
  - discriminate.
Qed.

(** What a calendar that names its owner yields as credentials. *)
Lemma has_owner_credentials (calendar creds : value) :
  has_owner calendar = true ->
  credentials calendar = Normal creds ->
  exists n a m,
    creds = Obj [("ownerName", n); ("ownerAddress", a); ("name", m)]
    /\ is_set n = true /\ is_set a = true /\ get calendar "name" = Normal m.
Proof.
  unfold has_owner, credentials. destruct calendar as [| |?|?|?|?|props]; try discriminate.
  simpl. destruct (assoc "owner" props) as [o|]; [|discriminate].
  destruct o as [| |?|?|?|?|oprops]; try discriminate. simpl.
  destruct (assoc "name" oprops) as [n|]; [|discriminate].
  destruct (assoc "address" oprops) as [a|]; [|discriminate].
  intros Hset. apply andb_true_iff in Hset. destruct Hset as [Hn Ha]. simpl.
  destruct (assoc "name" props) as [m|]; intros H; injection H as <-.
  - exists n, a, m. auto.
  - exists n, a, Undefined. auto.
Qed.

(** [getRoom] leaves the attributes alone or writes the three room
    attributes, each with a value. *)
Lemma getRoom_fields (w : world) (this this' : context) (made : list remote_call)
  (o : outcome) :
  directory_names_owners w = true ->
  getRoom w this = (made, this', o) ->
  booking_fields (attributes this') = booking_fields (attributes this)
  \/ exists a n m,
       is_set a = true /\ is_set n = true /\ is_set m = true
       /\ booking_fields (attributes this')
          = (a, n, m, startTime (attributes this), endTime (attributes this),
             duration (attributes this)).
Proof.
  intros Hdir. unfold getRoom. unfold directory_names_owners in Hdir.
  destruct (getCalendars w) as [[|parsedCals|calError]|e];
    try (intros H; injection H as _ <- _; left; reflexivity).
  destruct (findFreeRoom (config_testNames w) parsedCals (views_order w))
    as [[stop|] [creds|reason|e|]] eqn:Hfind;
    try (intros H; injection H as _ <- _; left; reflexivity).
  apply (f_equal fate), findFreeRoom_resolved in Hfind.
  destruct Hfind as (calendars & c & -> & Hin & Hl & Hcreds).
  rewrite forallb_forall in Hdir. specialize (Hdir c Hin).
  destruct (has_owner_credentials _ _ Hdir Hcreds) as (n & a & m & -> & Hn & Ha & Hm).
  apply listed_true in Hl. destruct Hl as (s & Hname & _).
  rewrite Hname in Hm. injection Hm as <-.
  simpl. intros H; injection H as _ <- _. right.
  exists a, n, (Str s). repeat split; assumption.
Qed.

Lemma setDuration_fields (w : world) (d : Duration) (this : context) :
  booking_fields (attributes (setDuration w d this))
  = (ownerAddress (attributes this), ownerName (attributes this),
     roomName (attributes this), Some (now w),
     Some (now w + asMilliseconds d), Some (asMinutes d)).
Proof. reflexivity. Qed.

Lemma DurationIntent_ok (w : world) (this : context) (r : response)
  (s' : session_attributes) :
  booking_fields_ok (attributes this) = true ->
  directory_names_owners w = true ->
  turn_end (timeModeHandlers.DurationIntent w this) = Responded r s' ->
  booking_fields_ok s' = true.
Proof.
  intros Hok Hdir. unfold timeModeHandlers.DurationIntent. cbv zeta.
  cbn [truthy_object]. set (d := moment_duration w (slot_Duration this)).
  destruct (negb (Qle_bool (asHours d) 2));
    [intros H; apply (emitAsk_ok _ _ _ _ _ H); exact Hok|].
  destruct (Qle_bool (asHours d) 0);
    [intros H; apply (emitAsk_ok _ _ _ _ _ H); exact Hok|].
  destruct (getRoom _ _) as [[made this'] o] eqn:Hroom. intros H.
  apply (room_answer_ok _ _ _ _ _ H).
  unfold booking_fields_ok in Hok |- *.
  apply andb_true_iff in Hok. destruct Hok as [Hok _].
  apply andb_true_iff in Hok. destruct Hok as [_ Hroomok].
  unfold window_all_or_none, room_all_or_none, room_within_window in Hroomok |- *.
  destruct (getRoom_fields _ _ _ _ _ Hdir Hroom)
    as [Hsame | (a & n & m & Ha & Hn & Hm & Hnew)].
  - rewrite setDuration_fields in Hsame. unfold booking_fields in Hsame.
    injection Hsame as E1 E2 E3 E4 E5 E6.
    rewrite E1, E2, E3, E4, E5, E6. rewrite Hroomok. simpl.
    destruct (is_set (roomName (attributes this))); reflexivity.
  - unfold booking_fields in Hnew. injection Hnew as E1 E2 E3 E4 E5 E6.
    simpl in E4, E5, E6. rewrite E1, E2, E3, E4, E5, E6, Ha, Hn, Hm. reflexivity.
Qed.

Lemma BookIntent_ok (w : world) (this : context) (r : response)
  (s' : session_attributes) :
  booking_fields_ok (attributes this) = true ->
  turn_end (confirmModeHandlers.BookIntent w this) = Responded r s' ->
  booking_fields_ok s' = true.
Proof.
  intros Hok. unfold confirmModeHandlers.BookIntent. cbv zeta.
  destruct (postRoom w (ownerName (attributes this))) as [[|v|reason]|e];
    cbn [turn_end]; try discriminate;
    intros H; apply (emit_response_ok _ _ _ _ H); exact Hok.
Qed.

(** One invocation keeps the booking attributes in order. *)
Lemma handle_keeps_booking_fields (w : world) (s : session_attributes)
  (ev : event_name) (slot : value) (r : response) (s' : session_attributes) :
  booking_fields_ok s = true ->
  directory_names_owners w = true ->
  turn_end (handle w s ev slot) = Responded r s' ->
  booking_fields_ok s' = true.
Proof.
  intros Hok Hdir H.
  destruct (handle_runs_a_listener w s ev slot) as (key & h & Hin & _ & Heq).
  rewrite Heq in H. clear Heq.
  destruct (STATE s) eqn:Hst; each_listener Hin; simpl in H;
    try (apply (emitAsk_ok _ _ _ _ _ H); first [exact Hok | reflexivity]);
    try (apply (emit_response_ok _ _ _ _ H); exact Hok);
    try (apply (DurationIntent_ok w (mkContext _ s slot) _ _ Hok Hdir H));
    try (apply (BookIntent_ok w (mkContext _ s slot) _ _ Hok H)).
Qed.

(** What [getRoom] does to the context, by the fate of its promise. *)
Lemma getRoom_outcome (w : world) (this this' : context) (made : list remote_call)
  (o : outcome) :
  directory_names_owners w = true ->
  getRoom w this = (made, this', o) ->
  match o with
  | Settled_resolved creds =>
      truthy creds = true
      /\ exists a n m,
           is_set a = true /\ is_set n = true /\ is_set m = true
           /\ this' = with_attributes
                        (mkAttributes (STATE (attributes this)) a n m
                           (startTime (attributes this)) (endTime (attributes this))
                           (duration (attributes this)) (speechOutput (attributes this))
                           (repromptSpeech (attributes this)))
                        this
  | _ => this' = this
  end.
Proof.
  intros Hdir. unfold getRoom. unfold directory_names_owners in Hdir.
  destruct (getCalendars w) as [[|parsedCals|calError]|e];
    try (intros H; injection H as _ <- <-; reflexivity).
  destruct (findFreeRoom (config_testNames w) parsedCals (views_order w))
    as [[stop|] [creds|reason|e|]] eqn:Hfind;
    try (intros H; injection H as _ <- <-; reflexivity).
  apply (f_equal fate), findFreeRoom_resolved in Hfind.
  destruct Hfind as (calendars & c & -> & Hin & Hl & Hcreds).
  rewrite forallb_forall in Hdir. specialize (Hdir c Hin).
  destruct (has_owner_credentials _ _ Hdir Hcreds) as (n & a & m & -> & Hn & Ha & Hm).
  apply listed_true in Hl. destruct Hl as (s & Hname & _).
  rewrite Hname in Hm. injection Hm as <-.
  simpl. intros H; injection H as _ <- <-. split; [reflexivity|].
  exists a, n, (Str s). repeat split; assumption.
Qed.

(** An accepted or a refused duration keeps the booking attributes in step
    with the state, whatever the state the listener is run in. *)
Lemma DurationIntent_in_step (w : world) (s : session_attributes) (slot : value)
  (sp rp : option speech) (s' : session_attributes) :
  fields_follow_state s = true ->
  directory_names_owners w = true ->
  turn_end (timeModeHandlers.DurationIntent w (mkContext (STATE s) s slot))
  = Responded (ask sp rp) s' ->
  fields_follow_state s' = true.
Proof.
  intros Hok Hdir. destruct s as [st oa on rn stt et du so rs]. cbn [STATE].
  unfold timeModeHandlers.DurationIntent. cbv zeta. cbn [truthy_object slot_Duration].
  destruct (negb (Qle_bool (asHours (moment_duration w slot)) 2)).
  { unfold emitAsk, emit_response, responseReady. destruct st; simpl;
      intros H; injection H as _ _ <-; exact Hok. }
  destruct (Qle_bool (asHours (moment_duration w slot)) 0).
  { unfold emitAsk, emit_response, responseReady. destruct st; simpl;
      intros H; injection H as _ _ <-; exact Hok. }
  destruct (getRoom _ _) as [[made this] o] eqn:Hroom.
  apply (getRoom_outcome _ _ _ _ _ Hdir) in Hroom.
  unfold timeModeHandlers.room_answer.
  destruct o as [creds|reason|e|]; try discriminate.
  destruct Hroom as (Htruthy & a & n & m & Ha & Hn & Hm & ->).
  rewrite Htruthy.
  unfold emitAsk, emit_response, responseReady; simpl. intros H.
  injection H as _ _ <-. unfold fields_follow_state, booking_fields_set. simpl.
  rewrite Ha, Hn, Hm. reflexivity.
Qed.

(** One request in conversation, answered with a prompt, keeps the booking
    attributes in step with the state. *)
Lemma prompt_keeps_fields_in_step (w : world) (s : session_attributes)
  (ev : event_name) (slot : value) (sp rp : option speech) (s' : session_attributes) :
  fields_follow_state s = true ->
  directory_names_owners w = true ->
  turn_end (handle w s ev slot) = Responded (ask sp rp) s' ->
  fields_follow_state s' = true.
Proof.
  intros Hok Hdir H.
  destruct (handle_runs_a_listener w s ev slot) as (key & h & Hin & _ & Heq).
  rewrite Heq in H. clear Heq.
  destruct (STATE s) eqn:Hst; each_listener Hin;
    try (rewrite <- Hst in H; exact (DurationIntent_in_step _ _ _ _ _ _ Hok Hdir H));
    try (exfalso; exact (BookIntent_never_asks _ _ _ _ _ H));
    destruct s as [st oa on rn stt et du so rs]; cbn [STATE] in Hst; subst st;
    simpl in H;
    try (exfalso; exact (BookIntent_never_asks _ _ _ _ _ H));
    unfold emitAsk, emitRepeat, emit_response, responseReady in H; simpl in H;
    first [ discriminate H
          | injection H as _ _ <-; first [exact Hok | reflexivity] ].
Qed.

Lemma conversation_keeps_fields_in_step (s : session_attributes) :
  in_conversation s -> fields_follow_state s = true.
Proof.
  induction 1 as [|w s ev slot sp rp s' _ IH Hdir Hturn]; [reflexivity|].
  exact (prompt_keeps_fields_in_step _ _ _ _ _ _ _ IH Hdir Hturn).
Qed.

Lemma fields_in_step_all_or_none (s : session_attributes) :
  fields_follow_state s = true ->
  group_all_or_none s = true /\ booking_fields_ok s = true.
Proof.
  unfold fields_follow_state, booking_fields_set, booking_fields_clear,
    group_all_or_none, booking_fields_ok, window_all_or_none, room_all_or_none,
    room_within_window.
  destruct (STATE s), (is_set (ownerAddress s)), (is_set (ownerName s)),
    (is_set (roomName s)), (is_some (startTime s)), (is_some (endTime s)),
    (is_some (duration s)); simpl; intros H; try discriminate H; split; reflexivity.
Qed.

Lemma reachable_booking_fields_ok (s : session_attributes) :
  reachable s -> booking_fields_ok s = true.
Proof.
  intros [s0 Hopen | w s0 ev slot r s' Hopen Hdir Hturn].
  - apply fields_in_step_all_or_none, conversation_keeps_fields_in_step, Hopen.
  - apply (handle_keeps_booking_fields w s0 ev slot r s'); [|exact Hdir|exact Hturn].
    apply fields_in_step_all_or_none, conversation_keeps_fields_in_step, Hopen.
Qed.

Lemma sample_collecting_in_conversation : in_conversation Sample.collecting.
Proof.
  apply (conversation_goes_on
           (Sample.world_with Sample.listing_reply [] Sample.created_reply)
           fresh_session EvBookIntent Undefined
           (Some (T "TIME_DURATION_MESSAGE" [])) (Some (T "TIME_DURATION_REPROMPT" []))).
  - exact conversation_opens.
  - reflexivity.
  - reflexivity.
Qed.

Lemma sample_confirming_in_conversation : in_conversation Sample.confirming.
Proof.
  apply (conversation_goes_on
           (Sample.world_with Sample.listing_reply
              [(1%nat, Sample.busy_reply); (0%nat, Sample.free_reply)]
              Sample.created_reply)
           Sample.collecting EvDurationIntent (Str "PT30M")
           (Some (T "ROOM_AVAILABLE_MESSAGE" [Attr (Str "Room A")]))
           (Some (T "ROOM_AVAILABLE_REPROMPT" [Attr (Str "Room A")]))).
  - exact sample_collecting_in_conversation.
  - reflexivity.
  - reflexivity.
Qed.

(** C4 as stated fails: the time window is written before the search, so the
    invocation whose search is rejected answers with the error card and a
    session that has startTime, endTime and duration set and no room. *)
Lemma window_without_room_is_reachable :
  let w := Sample.world_with Sample.listing_reply
             [(0%nat, Sample.throttled_reply); (1%nat, Sample.busy_reply)]
             Sample.created_reply in
  let s := mkAttributes TIMEMODE Undefined Undefined Undefined
             (Some 1490000000000) (Some 1490001800000) (Some (30 # 1)%Q)
             (Some (T "TIME_DURATION_MESSAGE" [])) (Some (T "TIME_DURATION_REPROMPT" [])) in
  attributes (setDuration w (mkDuration 1800000)
                (mkContext TIMEMODE Sample.collecting (Str "PT30M")))
  = s
  /\ turn_end (handle w Sample.collecting EvDurationIntent (Str "PT30M"))
     = Responded
         (tellWithCard (T "ROOM_ERROR" []) (T "ROOM_ERROR_CARD_TITLE" [])
            (Attr (Str "Too many requests.")))
         s
  /\ reachable s
  /\ group_all_or_none s = false.
Proof.
  cbv zeta. split; [reflexivity|]. split; [reflexivity|]. split; [|reflexivity].
  apply (reach_turn
           (Sample.world_with Sample.listing_reply
              [(0%nat, Sample.throttled_reply); (1%nat, Sample.busy_reply)]
              Sample.created_reply)
           Sample.collecting EvDurationIntent (Str "PT30M")
           (tellWithCard (T "ROOM_ERROR" []) (T "ROOM_ERROR_CARD_TITLE" [])
              (Attr (Str "Too many requests.")))).
  - exact sample_collecting_in_conversation.
  - reflexivity.
  - reflexivity.
Qed.

(** C4 (amended).  With a directory whose calendars name their owner: in
    every session in conversation the six booking attributes are all set or
    all unset, set in the confirmation state and unset in the other two; and
    in every session an invocation can leave behind, a closing response
    included, startTime, endTime and duration are all set or all unset,
    ownerAddress, ownerName and roomName are all set or all unset, and the
    room is set only when the window is. *)
Theorem booking_fields_stay_in_order (s : session_attributes) :
  (in_conversation s ->
     group_all_or_none s = true /\ fields_follow_state s = true)
  /\ (reachable s ->
        window_all_or_none s = true /\ room_all_or_none s = true
        /\ room_within_window s = true).
Proof.
  split.
  - intros Hopen. pose proof (conversation_keeps_fields_in_step s Hopen) as Hstep.
    split; [apply fields_in_step_all_or_none, Hstep | exact Hstep].
  - intros Hreach. pose proof (reachable_booking_fields_ok s Hreach) as Hok.
    unfold booking_fields_ok in Hok.
    apply andb_true_iff in Hok. destruct Hok as [Hok H3].
    apply andb_true_iff in Hok. destruct Hok as [H1 H2]. auto.
Qed.

Lemma booking_fields_stay_in_order_witness :
  (group_all_or_none Sample.confirming = true
   /\ fields_follow_state Sample.confirming = true)
  /\ (window_all_or_none Sample.confirming = true
      /\ room_all_or_none Sample.confirming = true
      /\ room_within_window Sample.confirming = true).
Proof.
  split.
  - apply (proj1 (booking_fields_stay_in_order Sample.confirming)).
    exact sample_confirming_in_conversation.
  - apply (proj2 (booking_fields_stay_in_order Sample.confirming)).
    apply reach_open. exact sample_confirming_in_conversation.
Defined.

(** * Further properties of the requesters *)

(** ** The allow-list test *)

Lemma index_from_bounds (namesToFind : list string) (s : string) :
  forall i, 0 <= i ->
  (In s namesToFind -> i <= index_from i namesToFind s)
  /\ (~ In s namesToFind -> index_from i namesToFind s = -1).
Proof.
  induction namesToFind as [|n rest IH]; intros i Hi; simpl.
  - split; [contradiction | reflexivity].
  - destruct (String.eqb_spec n s) as [->|Hne].
    + split; [intros _; lia | intros H; contradiction H; left; reflexivity].
    + destruct (IH (i + 1) ltac:(lia)) as [Hin Hout]. split.
      * intros [H|H]; [contradiction | specialize (Hin H); lia].
      * intros H. apply Hout. intros Hin'. apply H. right. exact Hin'.
Qed.

Lemma existsb_eqb_In (namesToFind : list string) (s : string) :
  existsb (String.eqb s) namesToFind = true <-> In s namesToFind.
Proof.
  rewrite existsb_exists. split.
  - intros (n & Hin & Heq). apply String.eqb_eq in Heq. subst n. exact Hin.
  - intros Hin. exists s. split; [exact Hin | apply String.eqb_refl].
Qed.

(** On an object the test of [findFreeRoom] is the lookup [on_list]. *)
Lemma listed_on_list (namesToFind : list string) (props : list (string * value)) :
  listed namesToFind (Obj props) = Normal (on_list namesToFind (Obj props)).
Proof.
  unfold listed, on_list. simpl.
  destruct (assoc "name" props) as [name|]; simpl; [|reflexivity].
  destruct name as [| |?|?|s|?|?]; try reflexivity.
  simpl. f_equal. unfold bitnot.
  destruct (in_dec string_dec s namesToFind) as [Hin|Hout].
  - pose proof (proj1 (index_from_bounds namesToFind s 0 ltac:(lia)) Hin) as Hge.
    rewrite (proj2 (existsb_eqb_In namesToFind s) Hin).
    apply negb_true_iff, Z.eqb_neq. unfold Z.lnot. lia.
  - rewrite (proj2 (index_from_bounds namesToFind s 0 ltac:(lia)) Hout).
    destruct (existsb (String.eqb s) namesToFind) eqn:Hex; [|reflexivity].
    apply existsb_eqb_In in Hex. contradiction.
Qed.

(** X1.  The test [~namesToFind.indexOf(calendar.name)] holds exactly when
    the name of the calendar is a string that occurs in [namesToFind]: the
    bitwise complement is zero for the one index, -1, that [indexOf] returns
    for a name it does not find, the first position, 0, included among the
    hits. *)
Theorem allow_list_test_is_membership (namesToFind : list string) (calendar : value) :
  listed namesToFind calendar = Normal true
  <-> exists s, get calendar "name" = Normal (Str s) /\ In s namesToFind.
Proof.
  split; [apply listed_true|].
  intros (s & Hname & Hin). unfold listed. rewrite Hname. simpl. f_equal.
  pose proof (proj1 (index_from_bounds namesToFind s 0 ltac:(lia)) Hin) as Hge.
  apply negb_true_iff, Z.eqb_neq. unfold bitnot, Z.lnot. lia.
Qed.

Lemma allow_list_test_is_membership_witness :
  listed ["Room A"; "Room B"] Sample.room_a = Normal true
  /\ exists s, get Sample.room_b "name" = Normal (Str s) /\ In s ["Room A"; "Room B"].
Proof.
  split.
  - apply (proj2 (allow_list_test_is_membership ["Room A"; "Room B"] Sample.room_a)).
    exists "Room A". split; [reflexivity | left; reflexivity].
  - apply (proj1 (allow_list_test_is_membership ["Room A"; "Room B"] Sample.room_b)).
    reflexivity.
Defined.

(** X2.  For a listing of calendar objects in which every calendar on the
    list has an id that is a string, a number or a boolean, the loop of
    [findFreeRoom] throws nothing and sends one request for each calendar on
    the list and for no other, in the order of the listing. *)
Theorem requests_follow_the_listing (namesToFind : list string)
  (calendars : list value) :
  forallb (calendar_ok namesToFind) calendars = true ->
  forEach_issue namesToFind (Arr calendars)
  = (filter (on_list namesToFind) calendars, None).
Proof.
  simpl. induction calendars as [|c rest IH]; simpl; [reflexivity|].
  intros H. apply andb_true_iff in H. destruct H as [Hc Hrest].
  unfold calendar_ok in Hc. apply andb_true_iff in Hc. destruct Hc as [Hobj Hid].
  destruct c as [| |?|?|?|?|props]; try discriminate Hobj.
  rewrite listed_on_list. destruct (on_list namesToFind (Obj props)).
  - simpl in Hid. unfold calViewUrl_ok. unfold has_id in Hid. simpl.
    destruct (assoc "id" props) as [id|]; [|discriminate Hid].
    destruct id; try discriminate Hid; simpl; rewrite (IH Hrest); reflexivity.
  - exact (IH Hrest).
Qed.

Lemma requests_follow_the_listing_witness :
  forEach_issue Sample.names Sample.listing
  = (filter (on_list Sample.names) [Sample.room_a; Sample.kitchen; Sample.room_b], None).
Proof.
  apply (requests_follow_the_listing Sample.names
           [Sample.room_a; Sample.kitchen; Sample.room_b]).
  reflexivity.
Defined.

(** ** Searches that cannot answer *)

Lemma deliver_nil (order : list (nat * reply)) : deliver [] order = [].
Proof.
  induction order as [|[i r] rest IH]; simpl; [reflexivity|].
  destruct i; exact IH.
Qed.

Lemma issue_none_listed (namesToFind : list string) (calendars : list value) :
  Forall (fun c => listed namesToFind c = Normal false) calendars ->
  issue namesToFind calendars = ([], None).
Proof.
  induction 1 as [|c rest Hc _ IH]; simpl; [reflexivity|].
  rewrite Hc. exact IH.
Qed.

(** X3.  When no calendar of the listing passes the allow-list test (an
    empty listing, an empty list of names, or names that match nothing),
    [findFreeRoom] sends no request, throws nothing and returns a promise
    that no completion order can settle. *)
Theorem search_without_requests_never_settles (namesToFind : list string)
  (calendars : list value) (order : list (nat * reply)) :
  Forall (fun c => listed namesToFind c = Normal false) calendars ->
  forEach_issue namesToFind (Arr calendars) = ([], None)
  /\ findFreeRoom namesToFind (Arr calendars) order = mkSearch None Unsettled.
Proof.
  intros Hnone. pose proof (issue_none_listed _ _ Hnone) as Hissue.
  split; [exact Hissue|].
  unfold findFreeRoom. simpl. rewrite Hissue, deliver_nil. reflexivity.
Qed.

Lemma search_without_requests_never_settles_witness :
  forEach_issue [] Sample.listing = ([], None)
  /\ findFreeRoom [] Sample.listing [(0%nat, Sample.free_reply)]
     = mkSearch None Unsettled.
Proof.
  apply (search_without_requests_never_settles [] 
           [Sample.room_a; Sample.kitchen; Sample.room_b]
           [(0%nat, Sample.free_reply)]).
  repeat constructor.
Defined.

(** ** The race of the callbacks *)

(** X4.  The first answer in completion order whose callback resolves,
    rejects or throws decides the search by itself: with only Busy answers
    before it (their events converting to text), the promise ends as it
    would if that answer were the only one, and nothing that arrives later
    has any effect. *)
Theorem first_answer_that_settles_or_throws_decides (pre post : list (value * reply))
  (calendar : value) (r : reply) :
  Forall (fun cr => plainly_busy (snd cr) = true) pre ->
  findFreeRoom_callback calendar r Pending <> Normal Pending ->
  observe (run_callbacks Pending (pre ++ (calendar, r) :: post))
  = observe (run_callbacks Pending [(calendar, r)]).
Proof.
  intros Hpre Hdecides. rewrite (run_callbacks_app_busy _ _ Hpre). simpl.
  destruct (findFreeRoom_callback calendar r Pending) as [d'|e]; [|reflexivity].
  destruct d' as [|v|reason]; [contradiction Hdecides; reflexivity| |];
    rewrite observe_settled; reflexivity.
Qed.

Lemma first_answer_that_settles_or_throws_decides_witness :
  observe (run_callbacks Pending
             ([(Sample.room_a, Sample.busy_reply)]
              ++ (Sample.room_b, Sample.unreachable_reply)
              :: [(Sample.room_a, Sample.free_reply)]))
  = observe (run_callbacks Pending [(Sample.room_b, Sample.unreachable_reply)]).
Proof.
  apply (first_answer_that_settles_or_throws_decides
           [(Sample.room_a, Sample.busy_reply)] [(Sample.room_a, Sample.free_reply)]
           Sample.room_b Sample.unreachable_reply).
  - repeat constructor.
  - discriminate.
Defined.

Lemma lone_free_room_resolves (winner creds : value) (arrivals : list (value * reply)) :
  credentials winner = Normal creds ->
  Forall (fun cr => plainly_busy (snd cr) = true
                    \/ (classify (snd cr) = Some Free /\ fst cr = winner)) arrivals ->
  Exists (fun cr => classify (snd cr) = Some Free) arrivals ->
  observe (run_callbacks Pending arrivals) = Settled_resolved creds.
Proof.
  intros Hcreds Hall. induction Hall as [|[c r] rest Hhead _ IH]; intros Hex.
  - inversion Hex.
  - simpl in Hhead. simpl. destruct Hhead as [Hbusy | [Hfree Hwin]].
    + rewrite (callback_busy c r Pending Hbusy). apply IH.
      inversion Hex as [x l Hx | x l Hx]; subst; [|exact Hx].
      simpl in Hx. unfold plainly_busy in Hbusy. rewrite Hx in Hbusy.
      discriminate Hbusy.
    + subst c. rewrite (callback_free winner r Pending creds Hfree Hcreds). simpl.
      rewrite (observe_settled (Fulfilled creds)); reflexivity.
Qed.

(** X5.  When the answers are Busy (their events converting to text) except
    for those of one calendar, which are Free, and at least one Free answer
    arrives, the promise is resolved with the credentials of that calendar in
    every completion order: any permutation of the arrivals gives the same
    resolution. *)
Theorem lone_free_room_wins_in_any_order (winner creds : value)
  (arrivals arrivals' : list (value * reply)) :
  Permutation arrivals arrivals' ->
  credentials winner = Normal creds ->
  Forall (fun cr => plainly_busy (snd cr) = true
                    \/ (classify (snd cr) = Some Free /\ fst cr = winner)) arrivals ->
  Exists (fun cr => classify (snd cr) = Some Free) arrivals ->
  observe (run_callbacks Pending arrivals) = Settled_resolved creds
  /\ observe (run_callbacks Pending arrivals') = Settled_resolved creds.
Proof.
  intros Hperm Hcreds Hall Hex. split.
  - exact (lone_free_room_resolves _ _ _ Hcreds Hall Hex).
  - apply (lone_free_room_resolves winner); [exact Hcreds | |].
    + exact (Permutation_Forall Hperm Hall).
    + exact (Permutation_Exists Hperm Hex).
Qed.

Lemma lone_free_room_wins_in_any_order_witness :
  let creds := Obj [("ownerName", Str "Room B");
                    ("ownerAddress", Str "room.b@example.com");
                    ("name", Str "Room B")] in
  observe (run_callbacks Pending
             [(Sample.room_a, Sample.busy_reply); (Sample.room_b, Sample.free_reply)])
  = Settled_resolved creds
  /\ observe (run_callbacks Pending
                [(Sample.room_b, Sample.free_reply); (Sample.room_a, Sample.busy_reply)])
     = Settled_resolved creds.
Proof.
  apply (lone_free_room_wins_in_any_order Sample.room_b).
  - apply perm_swap.
  - reflexivity.
  - constructor; [left; reflexivity|].
    constructor; [right; split; reflexivity | constructor].
  - apply Exists_cons_tl. apply Exists_cons_hd. reflexivity.
Defined.

(** ** Answers the callback cannot use *)

Lemma free_answer_shape (r : reply) :
  classify r = Some Free ->
  exists props,
    err r = Null /\ response_body r = JSON (Obj props)
    /\ assoc "error" props = None /\ assoc "value" props = Some (Arr []).
Proof.
  unfold classify. destruct (error_of r); [discriminate|].
  destruct (events_of r) as [[|ev rest]|] eqn:Hev; try discriminate.
  - intros _. exact (events_of_inv _ _ Hev).
  - destruct (forallb is_event (ev :: rest)); discriminate.
Qed.

(** X6.  A Free answer for a calendar object that has no owner (the member
    is missing, undefined or null) makes the callback throw TypeError while
    it builds the credentials; the deferred is not resolved, and with only
    Busy answers before it the search ends with that exception uncaught. *)
Theorem free_answer_for_ownerless_calendar_throws (calendar : value) (r : reply)
  (d : deferred) (pre post : list (value * reply)) :
  ownerless calendar = true ->
  classify r = Some Free ->
  Forall (fun cr => classify (snd cr) = Some Busy) pre ->
  findFreeRoom_callback calendar r d = Throw TypeError
  /\ observe (run_callbacks Pending (pre ++ (calendar, r) :: post)) = Uncaught TypeError.
Proof.
  intros Howner Hfree Hpre.
  assert (forall d0, findFreeRoom_callback calendar r d0 = Throw TypeError) as Hthrow.
  { intros d0. apply free_answer_shape in Hfree.
    destruct Hfree as (props & He & Hb & Herr & Hval).
    unfold findFreeRoom_callback. rewrite Hb, He. simpl. rewrite Herr, Hval. simpl.
    unfold ownerless in Howner. destruct calendar as [| |?|?|?|?|cprops];
      try discriminate Howner.
    unfold credentials. simpl.
    destruct (assoc "owner" cprops) as [o|]; [|reflexivity].
    destruct o; try discriminate Howner; reflexivity. }
  split; [apply Hthrow|].
  destruct (run_callbacks_app_busy_or_throws pre ((calendar, r) :: post) Hpre)
    as [-> | ->]; [|reflexivity].
  simpl. rewrite Hthrow. reflexivity.
Qed.

Lemma free_answer_for_ownerless_calendar_throws_witness :
  let orphan := Obj [("id", Str "cal-x"); ("name", Str "Room A")] in
  findFreeRoom_callback orphan Sample.free_reply Pending = Throw TypeError
  /\ observe (run_callbacks Pending
                ([(Sample.room_b, Sample.busy_reply)]
                 ++ (orphan, Sample.free_reply) :: []))
     = Uncaught TypeError.
Proof.
  intros orphan.
  apply (free_answer_for_ownerless_calendar_throws orphan Sample.free_reply Pending
           [(Sample.room_b, Sample.busy_reply)] []).
  - reflexivity.
  - reflexivity.
  - repeat constructor.
Defined.

(** X7.  A readable answer that reports no error and has no [value] member
    is passed over in silence: the callback neither resolves nor rejects nor
    throws, exactly as for a Busy answer, so a search whose answers are all
    of this kind never settles. *)
Theorem answer_without_value_is_passed_over (calendar : value) (r : reply)
  (d : deferred) (props : list (string * value)) (arrivals : list (value * reply)) :
  truthy (err r) = false ->
  response_body r = JSON (Obj props) ->
  assoc "error" props = None ->
  assoc "value" props = None ->
  findFreeRoom_callback calendar r d = Normal d
  /\ (Forall (fun cr => snd cr = r) arrivals ->
      observe (run_callbacks Pending arrivals) = Unsettled).
Proof.
  intros Herr Hbody Herror Hvalue.
  assert (forall c d0, findFreeRoom_callback c r d0 = Normal d0) as Hskip.
  { intros c d0. unfold findFreeRoom_callback. rewrite Hbody, Herr. simpl.
    rewrite Herror, Hvalue. reflexivity. }
  split; [apply Hskip|].
  induction 1 as [|[c r'] rest Hhead _ IH]; simpl; [reflexivity|].
  simpl in Hhead. subst r'. rewrite Hskip. exact IH.
Qed.

Lemma answer_without_value_is_passed_over_witness :
  let r := mkReply Null (JSON (Obj [("@odata.context", Str "calendarView")])) in
  findFreeRoom_callback Sample.room_a r Pending = Normal Pending
  /\ (Forall (fun cr => snd cr = r) [(Sample.room_a, r); (Sample.room_b, r)] ->
      observe (run_callbacks Pending [(Sample.room_a, r); (Sample.room_b, r)])
      = Unsettled).
Proof.
  intros r.
  apply (answer_without_value_is_passed_over Sample.room_a r Pending
           [("@odata.context", Str "calendarView")]); reflexivity.
Defined.

(** * Further properties of the dialog *)

(** ** What getRoom leaves alone *)

Lemma store_credentials_of_object (props : list (string * value)) (this : context) :
  exists a n m,
    store_credentials (Obj props) this
    = Normal (with_attributes
                (mkAttributes (STATE (attributes this)) a n m
                   (startTime (attributes this)) (endTime (attributes this))
                   (duration (attributes this)) (speechOutput (attributes this))
                   (repromptSpeech (attributes this)))
                this).
Proof.
  unfold store_credentials. simpl.
  destruct (assoc "ownerAddress" props) as [a|];
    destruct (assoc "ownerName" props) as [n|];
    destruct (assoc "name" props) as [m|]; simpl; eexists _, _, _; reflexivity.
Qed.

(** [getRoom] touches the three room attributes only; it makes the directory
    call and at most the search call; and what it resolves with is truthy. *)
Lemma getRoom_frame (w : world) (this this' : context) (made : list remote_call)
  (o : outcome) :
  getRoom w this = (made, this', o) ->
  (exists a n m,
     this' = with_attributes
               (mkAttributes (STATE (attributes this)) a n m
                  (startTime (attributes this)) (endTime (attributes this))
                  (duration (attributes this)) (speechOutput (attributes this))
                  (repromptSpeech (attributes this)))
               this)
  /\ (made = [call_getCalendars]
      \/ exists v,
           getCalendars w = Normal (Fulfilled v)
           /\ made = [call_getCalendars;
                      call_findFreeRoom (startTime (attributes this))
                        (endTime (attributes this)) (config_testNames w) v])
  /\ (forall creds, o = Settled_resolved creds -> truthy creds = true).
Proof.
  assert (exists a n m,
            this = with_attributes
                     (mkAttributes (STATE (attributes this)) a n m
                        (startTime (attributes this)) (endTime (attributes this))
                        (duration (attributes this)) (speechOutput (attributes this))
                        (repromptSpeech (attributes this)))
                     this) as Hsame.
  { destruct this as [hs [st oa on rn stt et du so rs] sl].
    exists oa, on, rn. reflexivity. }
  unfold getRoom.
  destruct (getCalendars w) as [[|parsedCals|calError]|e];
    try (intros H; injection H as <- <- <-;
         split; [exact Hsame | split; [left; reflexivity | discriminate]]).
  destruct (findFreeRoom (config_testNames w) parsedCals (views_order w))
    as [[stop|] [creds|reason|e|]] eqn:Hfind;
    try (intros H; injection H as <- <- <-;
         split; [exact Hsame | split; [right; eexists; split; reflexivity | discriminate]]).
  apply (f_equal fate), findFreeRoom_resolved in Hfind.
  destruct Hfind as (calendars & c & -> & _ & _ & Hcreds).
  pose proof (credentials_truthy _ _ Hcreds) as Htruthy.
  apply credentials_shape in Hcreds. destruct Hcreds as (n & a & m & -> & _).
  destruct (store_credentials_of_object
              [("ownerName", n); ("ownerAddress", a); ("name", m)] this)
    as (a' & n' & m' & Hstore).
  rewrite Hstore. intros H; injection H as <- <- <-.
  split; [exists a', n', m'; reflexivity|].
  split; [right; eexists; split; reflexivity|].
  intros creds H; injection H as <-. exact Htruthy.
Qed.

(** An accepted duration hands over to [getRoom]. *)
Lemma accepted_duration_runs_getRoom (w : world) (s : session_attributes)
  (slot : value) :
  STATE s = TIMEMODE ->
  0 < asMilliseconds (moment_duration w slot) <= 7200000 ->
  handle w s EvDurationIntent slot
  = match getRoom w (setDuration w (moment_duration w slot) (mkContext TIMEMODE s slot))
    with
    | (made, this, o) => timeModeHandlers.room_answer made this o
    end.
Proof.
  intros Hst [Hpos Hcap]. unfold handle. rewrite Hst. simpl.
  unfold timeModeHandlers.DurationIntent. simpl.
  destruct (negb (Qle_bool (asHours (moment_duration w slot)) 2)) eqn:Hlong.
  { apply too_long_iff in Hlong. lia. }
  destruct (Qle_bool (asHours (moment_duration w slot)) 0) eqn:Hshort.
  { apply too_short_iff in Hshort. lia. }
  reflexivity.
Qed.

(** ** Failures and silences of the directory *)

(** X8.  When the directory query is rejected, an accepted DurationIntent
    makes that one call only, sends no availability query, and answers with
    the ROOM_ERROR card carrying the cause; the session it carries has the
    time window just stored and is otherwise as it was. *)
Theorem directory_failure_is_reported (w : world) (s : session_attributes)
  (slot : value) (cause : value) :
  STATE s = TIMEMODE ->
  0 < asMilliseconds (moment_duration w slot) <= 7200000 ->
  getCalendars w = Normal (Rejected cause) ->
  handle w s EvDurationIntent slot
  = mkTurn [call_getCalendars]
      (Responded
         (tellWithCard (T "ROOM_ERROR" []) (T "ROOM_ERROR_CARD_TITLE" []) (Attr cause))
         (with_window w (moment_duration w slot) s)).
Proof.
  intros Hst Hd Hcal. rewrite (accepted_duration_runs_getRoom w s slot Hst Hd).
  unfold getRoom. rewrite Hcal.
  destruct s as [st oa on rn stt et du so rs]. simpl in Hst. subst st. reflexivity.
Qed.

Lemma directory_failure_is_reported_witness :
  let w := Sample.world_with Sample.denied_reply [] Sample.created_reply in
  handle w Sample.collecting EvDurationIntent (Str "PT30M")
  = mkTurn [call_getCalendars]
      (Responded
         (tellWithCard (T "ROOM_ERROR" []) (T "ROOM_ERROR_CARD_TITLE" [])
            (Attr (Str "Access token has expired.")))
         (with_window w (moment_duration w (Str "PT30M")) Sample.collecting)).
Proof.
  intros w.
  apply (directory_failure_is_reported w Sample.collecting (Str "PT30M")).
  - reflexivity.
  - simpl. lia.
  - reflexivity.
Defined.

(** X9.  When the directory query is resolved but the search sends no
    request (the resolved value is not an array, as for a body without a
    [value] member, or no calendar of it is on the list), an accepted
    DurationIntent makes the directory call and the search call and then
    gives no response at all. *)
Theorem search_that_sends_nothing_gives_no_response (w : world)
  (s : session_attributes) (slot : value) (parsedCals : value) :
  STATE s = TIMEMODE ->
  0 < asMilliseconds (moment_duration w slot) <= 7200000 ->
  getCalendars w = Normal (Fulfilled parsedCals) ->
  fst (forEach_issue (config_testNames w) parsedCals) = [] ->
  handle w s EvDurationIntent slot
  = mkTurn
      [call_getCalendars;
       call_findFreeRoom (Some (now w))
         (Some (now w + asMilliseconds (moment_duration w slot)))
         (config_testNames w) parsedCals]
      NoResponse.
Proof.
  intros Hst Hd Hcal Hnone. rewrite (accepted_duration_runs_getRoom w s slot Hst Hd).
  unfold getRoom. rewrite Hcal. unfold findFreeRoom.
  destruct (forEach_issue (config_testNames w) parsedCals) as [sent stop].
  simpl in Hnone. subst sent. rewrite deliver_nil. simpl.
  destruct stop; reflexivity.
Qed.

Lemma search_that_sends_nothing_gives_no_response_witness :
  let w := Sample.world_with (Sample.ok (Obj [])) [(0%nat, Sample.free_reply)]
             Sample.created_reply in
  handle w Sample.collecting EvDurationIntent (Str "PT30M")
  = mkTurn
      [call_getCalendars;
       call_findFreeRoom (Some 1490000000000) (Some (1490000000000 + 1800000))
         Sample.names Undefined]
      NoResponse.
Proof.
  intros w.
  apply (search_that_sends_nothing_gives_no_response w Sample.collecting (Str "PT30M")
           Undefined).
  - reflexivity.
  - simpl. lia.
  - reflexivity.
  - reflexivity.
Defined.

(** X10.  The availability search of an accepted DurationIntent is asked for
    exactly the window that was just stored (now, and now plus the length of
    the duration), the configured room names and the value the directory
    query resolved with. *)
Theorem search_gets_the_stored_window (w : world) (s : session_attributes)
  (slot : value) (parsedCals : value) :
  STATE s = TIMEMODE ->
  0 < asMilliseconds (moment_duration w slot) <= 7200000 ->
  getCalendars w = Normal (Fulfilled parsedCals) ->
  calls (handle w s EvDurationIntent slot)
  = [call_getCalendars;
     call_findFreeRoom (Some (now w))
       (Some (now w + asMilliseconds (moment_duration w slot)))
       (config_testNames w) parsedCals].
Proof.
  intros Hst Hd Hcal. rewrite (accepted_duration_runs_getRoom w s slot Hst Hd).
  destruct (getRoom _ _) as [[made this] o] eqn:Hroom.
  rewrite room_answer_calls.
  destruct (getRoom_frame _ _ _ _ _ Hroom) as (_ & [Hmade | (v & Hv & Hmade)] & _).
  - revert Hroom. unfold getRoom. rewrite Hcal.
    destruct (findFreeRoom _ _ _) as [[stop|] [creds|reason|e|]];
      try (intros H; injection H as <- _ _; discriminate Hmade).
    destruct (store_credentials _ _); intros H; injection H as <- _ _;
      discriminate Hmade.
  - rewrite Hcal in Hv. injection Hv as <-. exact Hmade.
Qed.

Lemma search_gets_the_stored_window_witness :
  calls (handle (Sample.world_with Sample.listing_reply
                   [(0%nat, Sample.busy_reply)] Sample.created_reply)
           Sample.collecting EvDurationIntent (Str "PT2H"))
  = [call_getCalendars;
     call_findFreeRoom (Some 1490000000000) (Some (1490000000000 + 7200000))
       Sample.names Sample.listing].
Proof.
  apply (search_gets_the_stored_window
           (Sample.world_with Sample.listing_reply [(0%nat, Sample.busy_reply)]
              Sample.created_reply)
           Sample.collecting (Str "PT2H") Sample.listing).
  - reflexivity.
  - simpl. lia.
  - reflexivity.
Defined.

(** X11.  No DurationIntent invocation answers with the TIME_UNAVAILABLE
    prompt: what [findFreeRoom] resolves with is always the credentials
    object, which is truthy, so the branch of the handler for a falsy
    resolution is never taken. *)
Theorem unavailable_prompt_is_never_given (w : world) (s : session_attributes)
  (slot : value) (args : list speech) (rp : option speech) (s' : session_attributes) :
  turn_end (handle w s EvDurationIntent slot)
  <> Responded (ask (Some (T "TIME_UNAVAILABLE_MESSAGE" args)) rp) s'.
Proof.
  unfold handle. destruct (STATE s) eqn:Hst; simpl;
    try (unfold emitAsk, emit_response; simpl; discriminate).
  unfold timeModeHandlers.DurationIntent. simpl.
  destruct (negb (Qle_bool (asHours (moment_duration w slot)) 2));
    [unfold emitAsk, emit_response; simpl; discriminate|].
  destruct (Qle_bool (asHours (moment_duration w slot)) 0);
    [unfold emitAsk, emit_response; simpl; discriminate|].
  destruct (getRoom _ _) as [[made this] o] eqn:Hroom.
  destruct (getRoom_frame _ _ _ _ _ Hroom) as (_ & _ & Htruthy).
  unfold timeModeHandlers.room_answer.
  destruct o as [creds|reason|e|]; simpl; try discriminate.
  rewrite (Htruthy creds eq_refl).
  unfold emitAsk, emit_response; simpl; discriminate.
Qed.

Lemma unavailable_prompt_is_never_given_witness :
  turn_end
    (handle (Sample.world_with Sample.listing_reply [(0%nat, Sample.free_reply)]
               Sample.created_reply)
       Sample.collecting EvDurationIntent (Str "PT30M"))
  <> Responded
       (ask (Some (T "TIME_UNAVAILABLE_MESSAGE" [Minutes (Some (30 # 1)%Q)]))
            (Some (T "TIME_UNAVAILABLE_REPROMPT" [Minutes (Some (30 # 1)%Q)])))
       Sample.collecting.
Proof.
  apply (unavailable_prompt_is_never_given
           (Sample.world_with Sample.listing_reply [(0%nat, Sample.free_reply)]
              Sample.created_reply)
           Sample.collecting (Str "PT30M")).
Defined.

(** ** The confirmation *)

(** X12.  In the confirmation state, with a body that is JSON text, a
    BookIntent or YesIntent makes exactly one booking call, with the owner
    and the window of the session, and closes with a card: the BOOKING_ERROR
    card carrying the transport error when there is one, else carrying the
    whole [error] member of the body when that is truthy, else the
    ROOM_BOOKED card naming the owner and the minutes.  The session it
    carries is the session as it came. *)
Theorem booking_closes_with_a_card (w : world) (s : session_attributes)
  (ev : event_name) (slot : value) (parsed e : value) :
  STATE s = CONFIRMMODE ->
  ev = EvBookIntent \/ ev = EvYesIntent ->
  response_body (event_reply w) = JSON parsed ->
  get parsed "error" = Normal e ->
  handle w s ev slot
  = mkTurn
      [call_postRoom (ownerAddress s) (ownerName s) (startTime s) (endTime s)]
      (Responded
         (if truthy (err (event_reply w)) then
            tellWithCard (T "BOOKING_ERROR" []) (T "BOOKING_ERROR_CARD_TITLE" [])
              (Attr (err (event_reply w)))
          else if truthy e then
            tellWithCard (T "BOOKING_ERROR" []) (T "BOOKING_ERROR_CARD_TITLE" []) (Attr e)
          else
            tellWithCard
              (T "ROOM_BOOKED" [Attr (ownerName s); Minutes (duration s)])
              (T "CARD_ROOM_BOOKED_TITLE" [Attr (ownerName s)])
              (T "CARD_ROOM_BOOKED_CONTENT" [Attr (ownerName s); Minutes (duration s)]))
         s).
Proof.
  intros Hst Hev Hbody He.
  destruct s as [st oa on rn stt et du so rs]. simpl in Hst. subst st.
  assert (handle w (mkAttributes CONFIRMMODE oa on rn stt et du so rs) ev slot
          = confirmModeHandlers.BookIntent w
              (mkContext CONFIRMMODE (mkAttributes CONFIRMMODE oa on rn stt et du so rs)
                 slot)) as ->.
  { destruct Hev as [-> | ->]; reflexivity. }
  unfold confirmModeHandlers.BookIntent, postRoom, postRoom_callback. simpl.
  rewrite Hbody. simpl.
  destruct (truthy (err (event_reply w))); [reflexivity|].
  rewrite He. simpl. destruct (truthy e); reflexivity.
Qed.

Lemma booking_closes_with_a_card_witness :
  handle (Sample.world_with Sample.listing_reply [] Sample.denied_reply)
    Sample.confirming EvYesIntent Undefined
  = mkTurn
      [call_postRoom (Str "room.a@example.com") (Str "Room A")
         (Some 1490000000000) (Some 1490001800000)]
      (Responded
         (tellWithCard (T "BOOKING_ERROR" []) (T "BOOKING_ERROR_CARD_TITLE" [])
            (Attr (Obj [("code", Str "InvalidAuthenticationToken");
                        ("message", Str "Access token has expired.")])))
         Sample.confirming).
Proof.
  apply (booking_closes_with_a_card
           (Sample.world_with Sample.listing_reply [] Sample.denied_reply)
           Sample.confirming EvYesIntent Undefined
           (Obj [("error", Obj [("code", Str "InvalidAuthenticationToken");
                                ("message", Str "Access token has expired.")])])
           (Obj [("code", Str "InvalidAuthenticationToken");
                 ("message", Str "Access token has expired.")])).
  - reflexivity.
  - right. reflexivity.
  - reflexivity.
  - reflexivity.
Defined.

(** ** Intents across the states *)

(** X13.  In every state a YesIntent does what a BookIntent does: it starts
    the duration question in a session without state, books in the
    confirmation state, and in the duration state both fall to the
    Unhandled prompt. *)
Theorem yes_is_book (w : world) (s : session_attributes) (slot : value) :
  handle w s EvYesIntent slot = handle w s EvBookIntent slot.
Proof.
  destruct s as [st oa on rn stt et du so rs]. destruct st; reflexivity.
Qed.

(** X14.  In every state the stop, cancel and no intents make no remote
    call and close with the STOP_MESSAGE, carrying the session exactly as it
    came: nothing is cleared and the state is kept. *)
Theorem closing_intents_keep_the_session (w : world) (s : session_attributes)
  (ev : event_name) (slot : value) :
  In ev [EvStopIntent; EvCancelIntent; EvNoIntent] ->
  handle w s ev slot = mkTurn [] (Responded (tell (T "STOP_MESSAGE" [])) s).
Proof.
  intros Hev. destruct s as [st oa on rn stt et du so rs].
  destruct Hev as [<- | [<- | [<- | []]]]; destruct st; reflexivity.
Qed.

Lemma closing_intents_keep_the_session_witness :
  handle (Sample.world_with Sample.listing_reply [] Sample.created_reply)
    Sample.confirming EvNoIntent Undefined
  = mkTurn [] (Responded (tell (T "STOP_MESSAGE" [])) Sample.confirming).
Proof.
  apply (closing_intents_keep_the_session
           (Sample.world_with Sample.listing_reply [] Sample.created_reply)
           Sample.confirming EvNoIntent Undefined).
  right. right. left. reflexivity.
Defined.

Lemma BookIntent_calls (w : world) (this : context) :
  calls (confirmModeHandlers.BookIntent w this)
  = [call_postRoom (ownerAddress (attributes this)) (ownerName (attributes this))
       (startTime (attributes this)) (endTime (attributes this))].
Proof.
  unfold confirmModeHandlers.BookIntent.
  destruct (postRoom w (ownerName (attributes this))) as [[|v|reason]|e]; reflexivity.
Qed.

Lemma DurationIntent_calls (w : world) (this : context) :
  calls (timeModeHandlers.DurationIntent w this) = []
  \/ (0 < asMilliseconds (moment_duration w (slot_Duration this)) <= 7200000
      /\ exists rest,
           calls (timeModeHandlers.DurationIntent w this) = call_getCalendars :: rest
           /\ forall a b c d, ~ In (call_postRoom a b c d) rest).
Proof.
  unfold timeModeHandlers.DurationIntent. simpl.
  destruct (negb (Qle_bool (asHours (moment_duration w (slot_Duration this))) 2))
    eqn:Hlong; [left; reflexivity|].
  destruct (Qle_bool (asHours (moment_duration w (slot_Duration this))) 0)
    eqn:Hshort; [left; reflexivity|].
  right. split.
  { split.
    - destruct (Z.le_gt_cases (asMilliseconds (moment_duration w (slot_Duration this))) 0)
        as [H|H]; [|exact H].
      apply too_short_iff in H. rewrite H in Hshort. discriminate.
    - destruct (Z.le_gt_cases (asMilliseconds (moment_duration w (slot_Duration this)))
                  7200000) as [H|H]; [exact H|].
      apply too_long_iff in H. rewrite H in Hlong. discriminate. }
  destruct (getRoom _ _) as [[made this'] o] eqn:Hroom.
  rewrite room_answer_calls.
  destruct (getRoom_frame _ _ _ _ _ Hroom) as (_ & [-> | (v & _ & ->)] & _).
  - exists []. split; [reflexivity | intros a b c d []].
  - eexists. split; [reflexivity|].
    intros a b c d [H|[]]. discriminate H.
Qed.

(** X15.  Remote calls are made along the booking flow only.  An invocation
    that makes any call runs the DurationIntent listener of the duration
    state on a duration within the bounds, with the directory query as its
    first call and no booking among its calls, or it runs the BookIntent
    listener of the confirmation state, directly or through the YesIntent of
    a session in that state, with the booking of the session's owner and
    window as its only call.  The event string, the name of the request
    followed by the state of the session, tells which. *)
Theorem remote_calls_follow_the_flow (w : world) (s : session_attributes)
  (ev : event_name) (slot : value) :
  let eventString := event_string ev ++ state_string (STATE s) in
  calls (handle w s ev slot) = []
  \/ (eventString = "DurationIntent_TIMEMODE"
      /\ 0 < asMilliseconds (moment_duration w slot) <= 7200000
      /\ exists rest,
           calls (handle w s ev slot) = call_getCalendars :: rest
           /\ forall a b c d, ~ In (call_postRoom a b c d) rest)
  \/ ((eventString = "BookIntent_CONFIRMMODE"
       \/ (eventString = "AMAZON.YesIntent_CONFIRMMODE" /\ STATE s = CONFIRMMODE))
      /\ calls (handle w s ev slot)
         = [call_postRoom (ownerAddress s) (ownerName s) (startTime s) (endTime s)]).
Proof.
  cbv zeta.
  destruct (handle_runs_a_listener w s ev slot) as (key & h & Hin & Hkey & Heq).
  rewrite Heq. clear Heq.
  destruct (STATE s) eqn:Hst; each_listener Hin; try (left; reflexivity);
    (destruct Hkey as [[Hkey _] | [Hkey _]]; [|discriminate Hkey]);
    cbn [state_string] in Hkey |- *; simpl in Hkey; symmetry in Hkey.
  - (* the BookIntent listener, named in full by a session without state *)
    right. right. split; [left; exact Hkey|]. apply BookIntent_calls.
  - (* the DurationIntent listener, named in full by a session without state *)
    destruct (DurationIntent_calls w (mkContext NoState s slot))
      as [Hnone | (Hd & rest & Hcalls & Hnever)]; [left; exact Hnone|].
    right. left. split; [exact Hkey|]. split; [exact Hd|].
    exists rest. split; [exact Hcalls | exact Hnever].
  - (* DurationIntent in the duration state *)
    destruct (DurationIntent_calls w (mkContext TIMEMODE s slot))
      as [Hnone | (Hd & rest & Hcalls & Hnever)]; [left; exact Hnone|].
    right. left. split; [exact Hkey|]. split; [exact Hd|].
    exists rest. split; [exact Hcalls | exact Hnever].
  - (* YesIntent in the confirmation state *)
    right. right. split; [right; split; [exact Hkey | reflexivity]|].
    apply (BookIntent_calls w (mkContext CONFIRMMODE s slot)).
  - (* BookIntent in the confirmation state *)
    right. right. split; [left; exact Hkey|]. apply BookIntent_calls.
Qed.

Lemma remote_calls_follow_the_flow_witness :
  let w := Sample.world_with Sample.listing_reply [] Sample.created_reply in
  calls (handle w fresh_session (EvOther "BookIntent_CONFIRMMODE") Undefined)
  = [call_postRoom Undefined Undefined None None].
Proof.
  intros w.
  destruct (remote_calls_follow_the_flow w fresh_session
              (EvOther "BookIntent_CONFIRMMODE") Undefined)
    as [Hnone | [(Hkey & _) | (_ & Hcalls)]].
  - discriminate Hnone.
  - discriminate Hkey.
  - exact Hcalls.
Defined.

(** ** The states *)

(** The DurationIntent listener keeps the state of the session it is run
    on, or answers a duration within the bounds with the confirmation
    state. *)
Lemma DurationIntent_state (w : world) (s : session_attributes) (slot : value)
  (r : response) (s' : session_attributes) :
  turn_end (timeModeHandlers.DurationIntent w (mkContext (STATE s) s slot))
  = Responded r s' ->
  STATE s' = STATE s
  \/ (STATE s' = CONFIRMMODE
      /\ 0 < asMilliseconds (moment_duration w slot) <= 7200000).
Proof.
  pose proof (DurationIntent_calls w (mkContext (STATE s) s slot)) as Hcalls.
  destruct s as [st oa on rn stt et du so rs]. cbn [STATE] in *.
  unfold timeModeHandlers.DurationIntent in *. cbv zeta in *.
  cbn [truthy_object slot_Duration] in *.
  destruct (negb (Qle_bool (asHours (moment_duration w slot)) 2)).
  { unfold emitAsk, emit_response, responseReady. destruct st; simpl;
      intros H; injection H as _ <-; left; reflexivity. }
  destruct (Qle_bool (asHours (moment_duration w slot)) 0).
  { unfold emitAsk, emit_response, responseReady. destruct st; simpl;
      intros H; injection H as _ <-; left; reflexivity. }
  destruct (getRoom _ _) as [[made this] o] eqn:Hroom.
  destruct Hcalls as [Hnone | (Hd & _)].
  { rewrite room_answer_calls in Hnone.
    destruct (getRoom_frame _ _ _ _ _ Hroom) as (_ & [Hm | (v & _ & Hm)] & _);
      rewrite Hm in Hnone; discriminate Hnone. }
  destruct (getRoom_frame _ _ _ _ _ Hroom) as ((a & n & m & ->) & _ & _).
  unfold timeModeHandlers.room_answer.
  destruct o as [creds|reason|e|]; try discriminate.
  - destruct (truthy creds); unfold emitAsk, emit_response, responseReady;
      destruct st; simpl; intros H; injection H as _ <-; simpl;
      first [ left; reflexivity | right; split; [reflexivity | exact Hd] ].
  - unfold emit_response, responseReady. destruct st; simpl;
      intros H; injection H as _ <-; left; reflexivity.
Qed.

(** The BookIntent listener of the confirmation state keeps the state of the
    session it is run on. *)
Lemma BookIntent_state (w : world) (s : session_attributes) (slot : value)
  (r : response) (s' : session_attributes) :
  turn_end (confirmModeHandlers.BookIntent w (mkContext (STATE s) s slot))
  = Responded r s' ->
  STATE s' = STATE s.
Proof.
  destruct s as [st oa on rn stt et du so rs]. cbn [STATE].
  unfold confirmModeHandlers.BookIntent. cbv zeta. cbn [attributes ownerName].
  destruct (postRoom w on) as [[|v|reason]|e]; try discriminate;
    unfold emit_response, responseReady; destruct st; simpl;
    intros H; injection H as _ <-; reflexivity.
Qed.

(** X16.  An invocation that responds keeps the state of the session or
    moves it along the flow.  The duration state is entered from no state
    only, by a listener that starts a booking; the confirmation state is
    entered only by the DurationIntent listener of the duration state, on a
    duration within the bounds; and the state is emptied only by the restart
    listener of a state.  In particular no response takes a session from the
    confirmation state to the duration state. *)
Theorem state_changes_follow_the_flow (w : world) (s : session_attributes)
  (ev : event_name) (slot : value) (r : response) (s' : session_attributes) :
  turn_end (handle w s ev slot) = Responded r s' ->
  let eventString := event_string ev ++ state_string (STATE s) in
  STATE s' = STATE s
  \/ (STATE s = NoState /\ STATE s' = TIMEMODE
      /\ In eventString ["BookIntent"; "AMAZON.YesIntent"; "AMAZON.YesIntent_CONFIRMMODE"])
  \/ (STATE s' = CONFIRMMODE /\ eventString = "DurationIntent_TIMEMODE"
      /\ 0 < asMilliseconds (moment_duration w slot) <= 7200000)
  \/ (STATE s <> NoState /\ STATE s' = NoState
      /\ In eventString
           ["AMAZON.StartOverIntent_TIMEMODE"; "AMAZON.StartOverIntent_CONFIRMMODE"]).
Proof.
  intros H. cbv zeta.
  destruct (handle_runs_a_listener w s ev slot) as (key & h & Hin & Hkey & Heq).
  rewrite Heq in H. clear Heq.
  destruct (STATE s) eqn:Hst; each_listener Hin;
    try (rewrite <- Hst in H; apply BookIntent_state in H; left; rewrite H; exact Hst);
    try (rewrite <- Hst in H; apply DurationIntent_state in H;
         destruct H as [H | [H Hd]]; [left; rewrite H; exact Hst|];
         right; right; left; split; [exact H|]; split; [|exact Hd];
         destruct Hkey as [[Hkey _] | [Hkey _]]; [|discriminate Hkey];
         symmetry; exact Hkey);
    destruct s as [st oa on rn stt et du so rs]; cbn [STATE] in Hst; subst st;
    simpl in H;
    try (apply (BookIntent_state w (mkAttributes CONFIRMMODE oa on rn stt et du so rs))
           in H; left; exact H);
    unfold emitAsk, emitRepeat, emit_response, responseReady in H; simpl in H;
    injection H as _ <-; cbn [STATE];
    try (left; reflexivity);
    (destruct Hkey as [[Hkey _] | [Hkey _]]; [|discriminate Hkey]);
    simpl in Hkey; symmetry in Hkey.
  - right. left. split; [reflexivity|]. split; [reflexivity|].
    right. left. symmetry. exact Hkey.
  - right. left. split; [reflexivity|]. split; [reflexivity|].
    left. symmetry. exact Hkey.
  - right. left. split; [reflexivity|]. split; [reflexivity|].
    right. right. left. symmetry. exact Hkey.
  - right. right. right. split; [discriminate|]. split; [reflexivity|].
    left. symmetry. exact Hkey.
  - right. right. right. split; [discriminate|]. split; [reflexivity|].
    right. left. symmetry. exact Hkey.
Qed.

Lemma state_changes_follow_the_flow_witness :
  let eventString := "DurationIntent" ++ "_TIMEMODE" in
  STATE Sample.confirming = STATE Sample.collecting
  \/ (STATE Sample.collecting = NoState /\ STATE Sample.confirming = TIMEMODE
      /\ In eventString ["BookIntent"; "AMAZON.YesIntent"; "AMAZON.YesIntent_CONFIRMMODE"])
  \/ (STATE Sample.confirming = CONFIRMMODE /\ eventString = "DurationIntent_TIMEMODE"
      /\ 0 < asMilliseconds (Sample.durations (Str "PT30M")) <= 7200000)
  \/ (STATE Sample.collecting <> NoState /\ STATE Sample.confirming = NoState
      /\ In eventString
           ["AMAZON.StartOverIntent_TIMEMODE"; "AMAZON.StartOverIntent_CONFIRMMODE"]).
Proof.
  apply (state_changes_follow_the_flow
           (Sample.world_with Sample.listing_reply
              [(1%nat, Sample.busy_reply); (0%nat, Sample.free_reply)]
              Sample.created_reply)
           Sample.collecting EvDurationIntent (Str "PT30M")
           (ask (Some (T "ROOM_AVAILABLE_MESSAGE" [Attr (Str "Room A")]))
                (Some (T "ROOM_AVAILABLE_REPROMPT" [Attr (Str "Room A")])))
           Sample.confirming).
  reflexivity.
Defined.

(** ** The booking of a confirmed room *)

(** X17.  In a conversation (with a directory whose calendars name their
    owner) every booking call made for a session in the confirmation state
    carries what the session stores: its owner address and owner name, both
    set, and the start and the end of its window, both set. *)
Theorem confirmed_booking_calls_carry_the_stored_booking (w : world)
  (s : session_attributes) (ev : event_name) (slot : value)
  (ownerAddress0 ownerName0 : value) (startTime0 endTime0 : option Z) :
  in_conversation s ->
  STATE s = CONFIRMMODE ->
  In (call_postRoom ownerAddress0 ownerName0 startTime0 endTime0)
     (calls (handle w s ev slot)) ->
  (ownerAddress0 = ownerAddress s /\ is_set ownerAddress0 = true)
  /\ (ownerName0 = ownerName s /\ is_set ownerName0 = true)
  /\ (startTime0 = startTime s /\ is_some startTime0 = true)
  /\ (endTime0 = endTime s /\ is_some endTime0 = true).
Proof.
  intros Hconv Hst Hin.
  pose proof (conversation_keeps_fields_in_step s Hconv) as Hfields.
  assert (ownerAddress0 = ownerAddress s /\ ownerName0 = ownerName s
          /\ startTime0 = startTime s /\ endTime0 = endTime s) as (-> & -> & -> & ->).
  { clear Hfields Hconv.
    destruct (handle_runs_a_listener w s ev slot) as (key & h & Hreach & _ & Heq).
    rewrite Heq in Hin. clear Heq. rewrite Hst in Hreach, Hin.
    each_listener Hreach;
      try (unfold confirmModeHandlers.AMAZON_YesIntent in Hin;
           cbn [handler_state] in Hin);
      try (rewrite BookIntent_calls in Hin; destruct Hin as [Hin|[]];
           injection Hin as <- <- <- <-; repeat split; reflexivity);
      simpl in Hin; unfold emitAsk, emitRepeat, emit_response in Hin; simpl in Hin;
      contradiction Hin. }
  unfold fields_follow_state in Hfields. rewrite Hst in Hfields.
  unfold booking_fields_set in Hfields.
  repeat (apply andb_true_iff in Hfields; destruct Hfields as [Hfields ?]).
  repeat split; assumption.
Qed.

Lemma confirmed_booking_calls_carry_the_stored_booking_witness :
  (Str "room.a@example.com" = ownerAddress Sample.confirming
   /\ is_set (Str "room.a@example.com") = true)
  /\ (Str "Room A" = ownerName Sample.confirming /\ is_set (Str "Room A") = true)
  /\ (Some 1490000000000 = startTime Sample.confirming
      /\ is_some (Some 1490000000000) = true)
  /\ (Some 1490001800000 = endTime Sample.confirming
      /\ is_some (Some 1490001800000) = true).
Proof.
  apply (confirmed_booking_calls_carry_the_stored_booking
           (Sample.world_with Sample.listing_reply [] Sample.created_reply)
           Sample.confirming EvYesIntent Undefined).
  - exact sample_confirming_in_conversation.
  - reflexivity.
  - left. reflexivity.
Defined.

(** ** Help *)

(** X18.  In a conversation (with a directory whose calendars name their
    owner) the help of the duration state is always worded with an undefined
    room name, since no room is stored before the search resolves, while the
    help of the confirmation state always has a room name that is set; both
    make no call, keep the state and store the help prompt for a repeat. *)
Theorem help_names_the_room_only_when_booked (w : world) (s : session_attributes)
  (slot : value) :
  in_conversation s ->
  (STATE s = TIMEMODE ->
     handle w s EvHelpIntent slot
     = mkTurn []
         (Responded
            (ask (Some (T "TIME_HELP_MESSAGE" [Attr Undefined]))
                 (Some (T "TIME_HELP_REPROMPT" [Attr Undefined])))
            (prompted TIMEMODE s (T "TIME_HELP_MESSAGE" [Attr Undefined])
               (T "TIME_HELP_REPROMPT" [Attr Undefined]))))
  /\ (STATE s = CONFIRMMODE ->
        is_set (roomName s) = true
        /\ handle w s EvHelpIntent slot
           = mkTurn []
               (Responded
                  (ask (Some (T "BOOKING_HELP_MESSAGE" [Attr (roomName s)]))
                       (Some (T "BOOKING_HELP_REPROMPT" [Attr (roomName s)])))
                  (prompted CONFIRMMODE s (T "BOOKING_HELP_MESSAGE" [Attr (roomName s)])
                     (T "BOOKING_HELP_REPROMPT" [Attr (roomName s)])))).
Proof.
  intros Hconv. pose proof (conversation_keeps_fields_in_step s Hconv) as Hfields.
  unfold fields_follow_state in Hfields.
  destruct s as [st oa on rn stt et du so rs]. simpl in Hfields |- *.
  split; intros ->.
  - unfold booking_fields_clear in Hfields. simpl in Hfields.
    repeat (apply andb_true_iff in Hfields; destruct Hfields as [Hfields ?]).
    destruct rn; try discriminate. reflexivity.
  - unfold booking_fields_set in Hfields. simpl in Hfields.
    repeat (apply andb_true_iff in Hfields; destruct Hfields as [Hfields ?]).
    split; [assumption | reflexivity].
Qed.

Lemma help_names_the_room_only_when_booked_witness :
  is_set (roomName Sample.confirming) = true
  /\ handle (Sample.world_with Sample.listing_reply [] Sample.created_reply)
       Sample.confirming EvHelpIntent Undefined
     = mkTurn []
         (Responded
            (ask (Some (T "BOOKING_HELP_MESSAGE" [Attr (roomName Sample.confirming)]))
                 (Some (T "BOOKING_HELP_REPROMPT" [Attr (roomName Sample.confirming)])))
            (prompted CONFIRMMODE Sample.confirming
               (T "BOOKING_HELP_MESSAGE" [Attr (roomName Sample.confirming)])
               (T "BOOKING_HELP_REPROMPT" [Attr (roomName Sample.confirming)]))).
Proof.
  apply (help_names_the_room_only_when_booked
           (Sample.world_with Sample.listing_reply [] Sample.created_reply)
           Sample.confirming Undefined).
  - exact sample_confirming_in_conversation.
  - reflexivity.
Defined.

(** ** Events without a listener *)

(** X19.  A request of the service whose event string, its name followed
    by the state of the session, names no listener (an intent the skill does
    not know, a DurationIntent outside the duration state, a restart in a
    session without state, a session-ended notice in the duration or the
    confirmation state) is answered with the Unhandled prompt of that state:
    no remote call is made, the session stays open in the same state with
    its booking attributes untouched, and the prompt is stored for a
    repeat. *)
Theorem unheard_events_get_the_fallback_prompt (w : world) (s : session_attributes)
  (ev : event_name) (slot : value) :
  from_the_service ev = true ->
  listener listeners (event_string ev ++ state_string (STATE s)) = None ->
  handle w s ev slot
  = mkTurn []
      (Responded
         (ask (Some (fst (unhandled_prompt (STATE s))))
              (Some (snd (unhandled_prompt (STATE s)))))
         (prompted (STATE s) s (fst (unhandled_prompt (STATE s)))
            (snd (unhandled_prompt (STATE s))))).
Proof.
  intros _ Hnone. unfold handle. cbv zeta. rewrite Hnone.
  destruct s as [st oa on rn stt et du so rs]. destruct st; reflexivity.
Qed.

Lemma unheard_events_get_the_fallback_prompt_witness :
  handle (Sample.world_with Sample.listing_reply [] Sample.created_reply)
    Sample.confirming (EvOther "DurationIntent_TIMEMODE") Undefined
  = mkTurn []
      (Responded
         (ask (Some (T "BOOKING_UNHANDLED_MESSAGE" []))
              (Some (T "BOOKING_UNHANDLED_REPROMPT" [])))
         (prompted CONFIRMMODE Sample.confirming (T "BOOKING_UNHANDLED_MESSAGE" [])
            (T "BOOKING_UNHANDLED_REPROMPT" []))).
Proof.
  apply (unheard_events_get_the_fallback_prompt
           (Sample.world_with Sample.listing_reply [] Sample.created_reply)
           Sample.confirming (EvOther "DurationIntent_TIMEMODE") Undefined).
  - reflexivity.
  - reflexivity.
Defined.

(** ** What a repeat can find *)

Lemma DurationIntent_keeps_prompt (w : world) (this : context) (sp rp : option speech)
  (s' : session_attributes) :
  turn_end (timeModeHandlers.DurationIntent w this) = Responded (ask sp rp) s' ->
  is_some (speechOutput s') = true /\ is_some (repromptSpeech s') = true.
Proof.
  intros H. destruct (DurationIntent_stores _ _ _ _ _ H) as [Hs Hr].
  rewrite Hs, Hr. clear Hs Hr. revert H.
  unfold timeModeHandlers.DurationIntent. cbv zeta. cbn [truthy_object].
  destruct (negb (Qle_bool (asHours (moment_duration w (slot_Duration this))) 2)).
  { intros H. apply emitAsk_stores in H. destruct H as (H & _).
    injection H as -> ->. split; reflexivity. }
  destruct (Qle_bool (asHours (moment_duration w (slot_Duration this))) 0).
  { intros H. apply emitAsk_stores in H. destruct H as (H & _).
    injection H as -> ->. split; reflexivity. }
  destruct (getRoom _ _) as [[made this'] o].
  unfold timeModeHandlers.room_answer.
  destruct o as [creds|reason|e|]; try discriminate.
  destruct (truthy creds); cbn [turn_end]; intros H;
    apply emitAsk_stores in H; destruct H as (H & _);
    injection H as -> ->; split; reflexivity.
Qed.

Lemma prompt_keeps_something_to_repeat (w : world) (s : session_attributes)
  (ev : event_name) (slot : value) (sp rp : option speech) (s' : session_attributes) :
  s = fresh_session
  \/ (is_some (speechOutput s) = true /\ is_some (repromptSpeech s) = true) ->
  turn_end (handle w s ev slot) = Responded (ask sp rp) s' ->
  s' = fresh_session
  \/ (is_some (speechOutput s') = true /\ is_some (repromptSpeech s') = true).
Proof.
  intros Hinv H.
  destruct (handle_runs_a_listener w s ev slot) as (key & h & Hin & _ & Heq).
  rewrite Heq in H. clear Heq.
  destruct (STATE s) eqn:Hst; each_listener Hin;
    try (right; exact (DurationIntent_keeps_prompt _ _ _ _ _ H));
    try (exfalso; exact (BookIntent_never_asks _ _ _ _ _ H));
    destruct s as [st oa on rn stt et du so rs]; cbn [STATE] in Hst; subst st;
    simpl in H;
    try (exfalso; exact (BookIntent_never_asks _ _ _ _ _ H));
    unfold emitAsk, emitRepeat, emit_response, responseReady in H; simpl in H;
    first [ discriminate H
          | injection H as _ _ <-; simpl;
            first [ right; split; reflexivity
                  | destruct Hinv as [Hfresh | Hboth];
                    [ inversion Hfresh; subst; left; reflexivity
                    | right; exact Hboth ] ] ].
Qed.

(** X20.  In a conversation a repeat always has a prompt to repeat, except
    in the session of first contact: every session in conversation other
    than the fresh one holds a stored speech and a stored reprompt, and a
    repeat in the fresh session asks with both undefined and leaves that
    session fresh. *)
Theorem repeat_finds_a_prompt_after_first_contact (s : session_attributes) :
  in_conversation s ->
  (s = fresh_session
   \/ (is_some (speechOutput s) = true /\ is_some (repromptSpeech s) = true))
  /\ forall w slot,
       handle w fresh_session EvRepeatIntent slot
       = mkTurn [] (Responded (ask None None) fresh_session).
Proof.
  intros Hconv. split; [|reflexivity].
  induction Hconv as [|w s ev slot sp rp s' _ IH _ Hturn]; [left; reflexivity|].
  exact (prompt_keeps_something_to_repeat _ _ _ _ _ _ _ IH Hturn).
Qed.

Lemma repeat_finds_a_prompt_after_first_contact_witness :
  (Sample.collecting = fresh_session
   \/ (is_some (speechOutput Sample.collecting) = true
       /\ is_some (repromptSpeech Sample.collecting) = true))
  /\ forall w slot,
       handle w fresh_session EvRepeatIntent slot
       = mkTurn [] (Responded (ask None None) fresh_session).
Proof.
  apply (repeat_finds_a_prompt_after_first_contact Sample.collecting).
  exact sample_collecting_in_conversation.
Defined.
